(** * analyze-site.js: the page analyser and its six rule evaluators

    A shallow embedding of [src/analyze-site.js].  The script fetches one
    page, parses it with cheerio, runs six evaluators over the parsed tree
    and the raw lines, and writes a flat text report.

    Conventions of the embedding.
    - A JavaScript string is a [string]: one [ascii] per code unit, so
      [String.length] is the [.length] of the script.  The messages of the
      script are written as literals; only their identity matters.
    - A value that may be [undefined] is an [option]; truthiness of such a
      value is [truthy].
    - A JavaScript number is a binary64 float ([PrimFloat.float]); array
      indices are integers in [Z], as [findIndex] answers -1.
    - The functions of cheerio and axios and the number formatting of the
      runtime that the script only calls, and what the import of line 5
      binds, are the fields of [Library] and [Environment].
    - A call that can throw answers the error beside what it leaves
      behind; an async function that throws answers the error alone. *)

From Stdlib Require Import List String Ascii ZArith Lia Bool.
From Stdlib Require Import DecimalString Floats Uint63.
Import ListNotations.
Local Open Scope string_scope.

(** ** JavaScript string and array primitives used by the script *)

Module JS.

(** The double quote, for the two messages that contain it. *)
Definition dquote : string := String (ascii_of_nat 34) EmptyString.

(** The line feed of [data.split('\n')]. *)
Definition LF : ascii := ascii_of_nat 10.

(** [!!s] for a string: every string but the empty one. *)
Definition nonempty (s : string) : bool :=
  match s with
  | EmptyString => false
  | String _ _ => true
  end.

(** [!!v] for a value that is a string or [undefined]. *)
Definition truthy (v : option string) : bool :=
  match v with
  | Some s => nonempty s
  | None => false
  end.

(** [v !== undefined]. *)
Definition defined (v : option string) : bool :=
  match v with
  | Some _ => true
  | None => false
  end.

(** [s.startsWith(p)]. *)
Definition startsWith (s p : string) : bool := String.prefix p s.

(** [s.includes(needle)]: a literal substring search. *)
Fixpoint includes (s needle : string) : bool :=
  if String.prefix needle s then true
  else match s with
       | EmptyString => false
       | String _ rest => includes rest needle
       end.

(** [s.split(sep)] for a separator of one code unit. *)
Fixpoint split (sep : ascii) (s : string) : list string :=
  match s with
  | EmptyString => [EmptyString]
  | String c rest =>
      if Ascii.eqb c sep then EmptyString :: split sep rest
      else match split sep rest with
           | [] => [String c EmptyString]
           | w :: ws => String c w :: ws
           end
  end.

(** [parts.join(sep)]. *)
Definition join (sep : string) (parts : list string) : string :=
  String.concat sep parts.

(** [c.toLowerCase()] on one code unit below 256: A-Z and the capital
    letters of Latin-1 (all of 192..222 but the multiplication sign). *)
Definition lowerChar (c : ascii) : ascii :=
  let n := nat_of_ascii c in
  if ((65 <=? n) && (n <=? 90))%nat then ascii_of_nat (n + 32)
  else if ((192 <=? n) && (n <=? 222) && negb (n =? 215))%nat
       then ascii_of_nat (n + 32)
  else c.

Fixpoint toLowerCase (s : string) : string :=
  match s with
  | EmptyString => EmptyString
  | String c rest => String (lowerChar c) (toLowerCase rest)
  end.

(** [xs.findIndex(p)], counting from [i]. *)
Fixpoint findIndexFrom {A : Type} (p : A -> bool) (xs : list A) (i : Z) : Z :=
  match xs with
  | [] => (-1)%Z
  | x :: rest => if p x then i else findIndexFrom p rest (i + 1)%Z
  end.

Definition findIndex {A : Type} (p : A -> bool) (xs : list A) : Z :=
  findIndexFrom p xs 0%Z.

(** An integer inside a template literal: its decimal digits. *)
Definition showZ (z : Z) : string := NilZero.string_of_int (Z.to_int z).

(** A natural number below 2^53 as a number of the runtime. *)
Definition numberOfZ (z : Z) : float := PrimFloat.of_uint63 (Uint63.of_Z z).

End JS.

(** ** The parsed tree (cheerio over domhandler) *)

Module Dom.

#[warnings="-register-all"]
Inductive node : Type :=
| Element (name : string) (attribs : list (string * string)) (children : list node)
| Text (data : string)
| Comment (data : string).

(** The document root: a node without a tag name whose children are the
    top-level nodes. *)
Definition document : Type := list node.

(** An element together with its chain of [parent] links, nearest first;
    the parent of the last one is the document root. *)
Record cursor : Type := { here : node; above : list node }.

(** [node.tagName]: [undefined] on anything but an element. *)
Definition tagName (n : node) : option string :=
  match n with
  | Element name _ _ => Some name
  | _ => None
  end.

Fixpoint assoc (key : string) (m : list (string * string)) : option string :=
  match m with
  | [] => None
  | (k, v) :: rest => if String.eqb k key then Some v else assoc key rest
  end.

(** [node.attribs[key]]. *)
Definition attrib (n : node) (key : string) : option string :=
  match n with
  | Element _ attribs _ => assoc key attribs
  | _ => None
  end.

(** The elements below [n], [n] first, in document order. *)
Fixpoint descend (up : list node) (n : node) : list cursor :=
  match n with
  | Element _ _ children =>
      {| here := n; above := up |} :: flat_map (descend (n :: up)) children
  | _ => []
  end.

Definition elements (doc : document) : list cursor := flat_map (descend []) doc.

(** The text below a node, as [.text()] collects it. *)
Fixpoint textContent (n : node) : string :=
  match n with
  | Element _ _ children => String.concat EmptyString (map textContent children)
  | Text data => data
  | Comment _ => EmptyString
  end.

(** The selectors the script passes to [$]. *)
Inductive selector : Type :=
| Universal
| ByTag (tag : string)
| ByTags (tags : list string)
| ByTagAttr (tag key value : string).

Definition hasName (tag : string) (n : node) : bool :=
  match tagName n with
  | Some name => String.eqb name tag
  | None => false
  end.

Definition matches (sel : selector) (n : node) : bool :=
  match sel with
  | Universal => JS.defined (tagName n)
  | ByTag tag => hasName tag n
  | ByTags tags => existsb (fun tag => hasName tag n) tags
  | ByTagAttr tag key value =>
      hasName tag n &&
      match attrib n key with
      | Some v => String.eqb v value
      | None => false
      end
  end.

(** [$(selector)]: the matching elements in document order. *)
Definition select (sel : selector) (doc : document) : list cursor :=
  filter (fun c => matches sel (here c)) (elements doc).

(** [$(...).text()]: the texts of all selected elements, concatenated. *)
Definition text (sel : list cursor) : string :=
  String.concat EmptyString (map (fun c => textContent (here c)) sel).

(** [$(element).attr(key)].  For a boolean attribute cheerio answers the
    attribute's name instead of its value; the script compares such an
    answer with [undefined] only, which this lookup decides alike. *)
Definition attr (c : cursor) (key : string) : option string := attrib (here c) key.

(** [$(selector).attr(key)]: the attribute of the first selected element. *)
Definition attrFirst (sel : list cursor) (key : string) : option string :=
  match sel with
  | [] => None
  | c :: _ => attr c key
  end.

(** [$(...).each(callback)]: the callback runs on each element in order,
    threading whatever it mutates.  No callback of the script answers
    [false], so the iteration never stops early. *)
Definition each {S : Type} (sel : list cursor) (callback : cursor -> S -> S) (s : S) : S :=
  fold_left (fun acc c => callback c acc) sel s.

End Dom.

Import Dom.
Import JS.

(** ** Findings, configuration and the libraries the script calls *)

(** One reported issue.  The four first fields are always written; the
    others are the optional properties of the object literal. *)
Record Finding : Type := {
  type : string;
  issue : string;
  solution : string;
  location : string;
  resource : option string;
  hierarchy : option string;
  size : option string;
  contrastRatio : option string
}.

(** The three constants at the head of the script. *)
Class Config : Type := {
  REPORT_FILE : string;
  MAX_IMAGE_SIZE_KB : Z;
  SITE_URL : string
}.

(** The values the script gives them. *)
Definition sourceConfig : Config := {|
  REPORT_FILE := "site-analysis-report.txt";
  MAX_IMAGE_SIZE_KB := 100;
  SITE_URL := "cheffycooking.netlify.app"
|}.

(** Pure functions of cheerio and the runtime, and the import of
    color-contrast. *)
Class Library : Type := {
  (** [$.html(element)]: the element serialised back to HTML. *)
  html : node -> string;
  (** [$(element).css(property)]: the inline style, [undefined] if unset. *)
  css : node -> string -> option string;
  (** What line 5 binds to [contrast]: the property of that name of the
      value [require('color-contrast')] answers, or [undefined] when the
      module has no such property, as when it exports the function
      itself. *)
  contrast : option (string -> string -> float);
  (** [x.toFixed(2)]. *)
  toFixed2 : float -> string;
  (** The number a header string converts to in arithmetic. *)
  toNumber : string -> float
}.

Record error : Type := { message : string }.

(** The [TypeError] of a call through a binding that is [undefined]. *)
Definition notAFunction (binding : string) : error :=
  {| message := binding ++ " is not a function" |}.

(** How [fs.writeFileSync] ends: it opens the file for writing, which
    empties it, writes, and closes.  It can fail at the open, before the
    file is touched, or later, when the file holds only the first
    [written] code units of the content. *)
Inductive write_result : Type :=
| Written
| FailedAtOpen (e : error)
| FailedAfter (e : error) (written : nat).

(** What the outside world answers during one run. *)
Class Environment : Type := {
  (** [axios.get(url)]: the body, or the failure it rejects with. *)
  axios_get : string -> error + string;
  (** [cheerio.load(data)]: the parsed tree, or the failure it throws. *)
  cheerio_load : string -> error + document;
  (** [fs.writeFileSync(path, content)]: how the write ends. *)
  write_outcome : string -> string -> write_result
}.

(** How [axios.head(src)] settles. *)
Inductive head_outcome : Type :=
| Responded (contentLength : option string)
| Rejected.

Inductive stream : Type := Stdout | Stderr.

Definition console_log : Type := list (stream * string).

(** [console.error] behind [logError], [console.log] behind [logSuccess]. *)
Definition logError (msg : string) (console : console_log) : console_log :=
  (console ++ [(Stderr, ("❌ " ++ msg)%string)])%list.

Definition logSuccess (msg : string) (console : console_log) : console_log :=
  (console ++ [(Stdout, ("✅ " ++ msg)%string)])%list.

(** [report.push(finding)]. *)
Definition push (report : list Finding) (finding : Finding) : list Finding :=
  (report ++ [finding])%list.

(** An async callback stopped at its [await axios.head(request)]: the
    rest of its body, which runs when the request settles, on the report
    array it captured and the console. *)
Record suspended : Type := {
  request : string;
  resume : head_outcome -> list Finding * console_log -> list Finding * console_log
}.

(** [$(...).each(async callback)]: each call runs up to its first
    [await] and hands back a promise that [each] drops. *)
Definition eachAsync (sel : list cursor) (callback : cursor -> option suspended)
  : list suspended :=
  flat_map (fun c => match callback c with
                     | Some pending => [pending]
                     | None => []
                     end) sel.

(** What a step that can throw leaves behind: the error it threw, if
    any, and the report array as it then stands. *)
Definition outcome : Type := (option error * list Finding)%type.

(** [$(...).each(callback)] for a callback that can throw: the first
    throw ends the iteration and goes on to the caller. *)
Fixpoint eachThrowing (sel : list cursor)
  (callback : cursor -> list Finding -> outcome) (report : list Finding) : outcome :=
  match sel with
  | [] => (None, report)
  | c :: rest =>
      match callback c report with
      | (Some e, report) => (Some e, report)
      | (None, report) => eachThrowing rest callback report
      end
  end.

Section Evaluators.

Context {cfg : Config} {lib : Library}.

(** [formatSize(bytes)]. *)
Definition formatSize (bytes : float) : string :=
  toFixed2 (PrimFloat.div bytes 1024%float) ++ " KB".

(** *** Element hierarchy (lines 26-39) *)

(** One step of the loop: [tag], then [#id] and [.classes] when set. *)
Definition hierarchyEntry (tagName : string) (currentElement : node) : string :=
  let tag := toLowerCase tagName in
  let id := match attrib currentElement "id" with
            | Some i => if nonempty i then "#" ++ i else EmptyString
            | None => EmptyString
            end in
  let classes := match attrib currentElement "class" with
                 | Some c => if nonempty c then "." ++ join "." (split " " c)
                             else EmptyString
                 | None => EmptyString
                 end in
  tag ++ id ++ classes.

(** The [while] loop: it goes on while the current node has a non-empty
    tag name, and leaves at the document root, which has none. *)
Fixpoint climb (currentElement : node) (parents : list node) (hierarchy : list string)
  : list string :=
  match tagName currentElement with
  | Some name =>
      if nonempty name then
        let hierarchy := hierarchyEntry name currentElement :: hierarchy in
        match parents with
        | [] => hierarchy
        | parent :: further => climb parent further hierarchy
        end
      else hierarchy
  | None => hierarchy
  end.

Definition getElementHierarchy (element : cursor) : string :=
  join " > " (climb (here element) (above element) []).

(** *** SEO (lines 42-93) *)

(** The title check (lines 46-61). *)
Definition checkTitle (doc : document) (report : list Finding) : list Finding :=
  let title := text (select (ByTag "title") doc) in
  if negb (nonempty title) then
    push report {| type := "SEO";
                   issue := "Título ausente";
                   solution := "Adicione uma tag <title> no <head> do HTML.";
                   location := "Head do documento";
                   resource := None; hierarchy := None;
                   size := None; contrastRatio := None |}
  else if (60 <? String.length title)%nat then
    push report {| type := "SEO";
                   issue := "Título muito longo";
                   solution := "Reduza o título para menos de 60 caracteres.";
                   location := "Head do documento";
                   resource := None; hierarchy := None;
                   size := None; contrastRatio := None |}
  else report.

(** The meta description check (lines 64-79). *)
Definition checkDescription (doc : document) (report : list Finding) : list Finding :=
  let description :=
    attrFirst (select (ByTagAttr "meta" "name" "description") doc) "content" in
  if negb (truthy description) then
    push report {| type := "SEO";
                   issue := "Meta description ausente";
                   solution := "Adicione uma meta description no <head> do HTML.";
                   location := "Head do documento";
                   resource := None; hierarchy := None;
                   size := None; contrastRatio := None |}
  else
    match description with
    | Some content =>
        if (160 <? String.length content)%nat then
          push report {| type := "SEO";
                         issue := "Meta description muito longa";
                         solution := "Reduza a meta description para menos de 160 caracteres.";
                         location := "Head do documento";
                         resource := None; hierarchy := None;
                         size := None; contrastRatio := None |}
        else report
    | None => report
    end.

(** The headings check (lines 82-90). *)
Definition checkHeadings (doc : document) (report : list Finding) : list Finding :=
  let headings := select (ByTags ["h1"; "h2"; "h3"; "h4"; "h5"; "h6"]) doc in
  if (List.length headings =? 0)%nat then
    push report {| type := "SEO";
                   issue := "Nenhum heading encontrado";
                   solution := "Adicione headings (h1, h2, etc.) para estruturar o conteúdo.";
                   location := "Corpo do documento";
                   resource := None; hierarchy := None;
                   size := None; contrastRatio := None |}
  else report.

Definition analyzeSEO (doc : document) (htmlLines : list string) : list Finding :=
  let report := [] in
  let report := checkTitle doc report in
  let report := checkDescription doc report in
  let report := checkHeadings doc report in
  report.

(** *** Performance (lines 96-143) *)

(** The callback of [$('script').each] (lines 100-115). *)
Definition scriptCallback (htmlLines : list string) (script : cursor)
  (report : list Finding) : list Finding :=
  let src := attr script "src" in
  let isAsync := defined (attr script "async") in
  let isDefer := defined (attr script "defer") in
  match src with
  | Some s =>
      if nonempty s && negb isAsync && negb isDefer then
        let scriptTag := html (here script) in
        let lineIndex := findIndex (fun line => includes line scriptTag) htmlLines in
        push report {| type := "Performance";
                       issue := "Script bloqueante";
                       solution := "Adicione os atributos " ++ dquote ++ "async" ++ dquote
                                   ++ " ou " ++ dquote ++ "defer" ++ dquote ++ " ao script.";
                       location := "Linha " ++ showZ (lineIndex + 1);
                       resource := Some s; hierarchy := None;
                       size := None; contrastRatio := None |}
      else report
  | None => report
  end.

(** The rest of the image callback after [await axios.head(src)]
    (lines 123-138). *)
Definition imageResume (htmlLines : list string) (img : cursor) (src : string)
  (outcome : head_outcome) (shared : list Finding * console_log)
  : list Finding * console_log :=
  let (report, console) := shared in
  match outcome with
  | Responded contentLength =>
      match contentLength with
      | Some bytes =>
          if nonempty bytes
             && PrimFloat.ltb (numberOfZ (MAX_IMAGE_SIZE_KB * 1024)) (toNumber bytes)
          then
            let imgTag := html (here img) in
            let lineIndex := findIndex (fun line => includes line imgTag) htmlLines in
            (push report {| type := "Performance";
                            issue := "Imagem muito grande";
                            solution := "Reduza o tamanho da imagem para menos de "
                                        ++ showZ MAX_IMAGE_SIZE_KB ++ " KB.";
                            location := "Linha " ++ showZ (lineIndex + 1);
                            resource := Some src; hierarchy := None;
                            size := Some (formatSize (toNumber bytes));
                            contrastRatio := None |},
             console)
          else (report, console)
      | None => (report, console)
      end
  | Rejected => (report, logError ("Erro ao verificar imagem: " ++ src) console)
  end.

(** The async callback of [$('img').each] (lines 118-140), up to its
    [await]: nothing is pushed before the request settles. *)
Definition imageCallback (htmlLines : list string) (img : cursor) : option suspended :=
  let src := attr img "src" in
  match src with
  | Some s =>
      if nonempty s && negb (startsWith s "data:") then
        Some {| request := s; resume := imageResume htmlLines img s |}
      else None
  | None => None
  end.

(** The evaluator answers its report array as it stands when the two
    loops have run, together with the image checks it left in flight. *)
Definition analyzePerformance (doc : document) (htmlLines : list string)
  : list Finding * list suspended :=
  let report := [] in
  let report := each (select (ByTag "script") doc) (scriptCallback htmlLines) report in
  let inflight := eachAsync (select (ByTag "img") doc) (imageCallback htmlLines) in
  (report, inflight).

(** *** Accessibility (lines 146-189) *)

(** The callback of [$('img').each] (lines 150-165). *)
Definition altCallback (htmlLines : list string) (img : cursor)
  (report : list Finding) : list Finding :=
  let alt := attr img "alt" in
  if negb (truthy alt) then
    let imgTag := html (here img) in
    let lineIndex := findIndex (fun line => includes line imgTag) htmlLines in
    let hierarchy := getElementHierarchy img in
    push report {| type := "Acessibilidade";
                   issue := "Imagem sem atributo ALT";
                   solution := "Adicione um atributo " ++ dquote ++ "alt" ++ dquote
                               ++ " descritivo à imagem.";
                   location := "Linha " ++ showZ (lineIndex + 1);
                   resource := attr img "src"; hierarchy := Some hierarchy;
                   size := None; contrastRatio := None |}
  else report.

(** The callback of [$('*').each] (lines 168-186).  The call of line
    172 goes through the binding of line 5 and throws when that is
    [undefined]. *)
Definition contrastCallback (htmlLines : list string) (element : cursor)
  (report : list Finding) : outcome :=
  let bgColor := css (here element) "background-color" in
  let textColor := css (here element) "color" in
  match bgColor, textColor with
  | Some bg, Some fg =>
      if nonempty bg && nonempty fg then
        match contrast with
        | Some ratio =>
            let contrastRatio := ratio bg fg in
            if PrimFloat.ltb contrastRatio 4.5%float then
              let elementTag := html (here element) in
              let lineIndex :=
                findIndex (fun line => includes line elementTag) htmlLines in
              (None,
               push report {| type := "Acessibilidade";
                              issue := "Contraste de cores insuficiente";
                              solution := "Aumente o contraste entre o texto e o fundo.";
                              location := "Linha " ++ showZ (lineIndex + 1);
                              resource := Some elementTag; hierarchy := None;
                              size := None;
                              contrastRatio := Some (toFixed2 contrastRatio) |})
            else (None, report)
        | None => (Some (notAFunction "contrast"), report)
        end
      else (None, report)
  | _, _ => (None, report)
  end.

(** The body of [analyzeAccessibility]: the two loops on the report
    array, the second of which can throw. *)
Definition accessibilityBody (doc : document) (htmlLines : list string) : outcome :=
  let report := [] in
  let report := each (select (ByTag "img") doc) (altCallback htmlLines) report in
  eachThrowing (select Universal doc) (contrastCallback htmlLines) report.

(** What the async function answers: its report, or the error of a
    throw, in which case the array and what was pushed to it are gone. *)
Definition analyzeAccessibility (doc : document) (htmlLines : list string)
  : error + list Finding :=
  match accessibilityBody doc htmlLines with
  | (Some e, _) => inl e
  | (None, report) => inr report
  end.

(** *** Broken links (lines 192-212) *)

(** The callback of [$('a').each] (lines 196-209). *)
Definition linkCallback (htmlLines : list string) (link : cursor)
  (report : list Finding) : list Finding :=
  let href := attr link "href" in
  match href with
  | Some h =>
      if nonempty h && (startsWith h "#" || String.eqb h EmptyString) then
        let linkTag := html (here link) in
        let lineIndex := findIndex (fun line => includes line linkTag) htmlLines in
        push report {| type := "Link";
                       issue := "Link quebrado ou vazio";
                       solution := "Corrija ou remova o link.";
                       location := "Linha " ++ showZ (lineIndex + 1);
                       resource := Some h; hierarchy := None;
                       size := None; contrastRatio := None |}
      else report
  | None => report
  end.

Definition analyzeBrokenLinks (doc : document) (htmlLines : list string) : list Finding :=
  let report := [] in
  let report := each (select (ByTag "a") doc) (linkCallback htmlLines) report in
  report.

(** *** Security (lines 215-230) *)

(** The transport check (lines 219-227). *)
Definition checkHttps (report : list Finding) : list Finding :=
  let hasHttps := startsWith SITE_URL "https://" in
  if negb hasHttps then
    push report {| type := "Segurança";
                   issue := "Site não utiliza HTTPS";
                   solution := "Configure o site para usar HTTPS.";
                   location := "URL do site";
                   resource := None; hierarchy := None;
                   size := None; contrastRatio := None |}
  else report.

Definition analyzeSecurity (doc : document) (htmlLines : list string) : list Finding :=
  let report := [] in
  let report := checkHttps report in
  report.

(** *** Mobile (lines 233-248) *)

(** The viewport check (lines 237-245). *)
Definition checkViewport (doc : document) (report : list Finding) : list Finding :=
  let viewport := attrFirst (select (ByTagAttr "meta" "name" "viewport") doc) "content" in
  if negb (truthy viewport) then
    push report {| type := "Mobile";
                   issue := "Viewport não configurado";
                   solution := "Adicione uma meta tag viewport no <head> do HTML.";
                   location := "Head do documento";
                   resource := None; hierarchy := None;
                   size := None; contrastRatio := None |}
  else report.

Definition analyzeMobile (doc : document) (htmlLines : list string) : list Finding :=
  let report := [] in
  let report := checkViewport doc report in
  report.

End Evaluators.

(** ** The report writer and the orchestrator *)

(** What a run can change: the console, the files on disk, and the
    report array of the performance evaluator with the image checks still
    in flight, which outlive the evaluator's return. *)
Record world : Type := {
  console : console_log;
  files : list (string * string);
  performanceReport : list Finding;
  inflight : list suspended
}.

(** A statement of the script: it changes the world and either answers
    a value or throws. *)
Definition M (A : Type) : Type := world -> (error + A) * world.

Definition ret {A : Type} (a : A) : M A := fun w => (inr a, w).

Definition throw {A : Type} (e : error) : M A := fun w => (inl e, w).

Definition bind {A B : Type} (m : M A) (k : A -> M B) : M B :=
  fun w => match m w with
           | (inr a, w') => k a w'
           | (inl e, w') => (inl e, w')
           end.

(** [try { body } catch (error) { handler }]. *)
Definition try_catch {A : Type} (body : M A) (handler : error -> M A) : M A :=
  fun w => match body w with
           | (inr a, w') => (inr a, w')
           | (inl e, w') => handler e w'
           end.

Notation "x <- m ;; k" := (bind m (fun x => k))
  (at level 61, m at next level, right associativity).
Notation "m ;;; k" := (bind m (fun _ => k))
  (at level 61, right associativity).

(** A call, or an awaited async call, that answers or throws without
    touching the world. *)
Definition attempt {A : Type} (r : error + A) : M A :=
  match r with
  | inl e => throw e
  | inr a => ret a
  end.

Definition modify (f : world -> world) : M unit := fun w => (inr tt, f w).

Definition write (path content : string) (fs : list (string * string))
  : list (string * string) :=
  (path, content) :: filter (fun entry => negb (String.eqb (fst entry) path)) fs.

Section Orchestrator.

Context {cfg : Config} {lib : Library} {env : Environment}.

Definition NL : string := String LF EmptyString.

(** One optional line of a block: written when the field is truthy. *)
Definition optionalLine (label : string) (field : option string) : string :=
  match field with
  | Some value => if nonempty value then "   - " ++ label ++ ": " ++ value ++ NL
                  else EmptyString
  | None => EmptyString
  end.

(** The body of [report.forEach] (lines 253-264) for one item. *)
Definition renderItem (index : Z) (item : Finding) (reportText : string) : string :=
  let reportText := reportText ++ "📌 Problema " ++ showZ (index + 1) ++ ":" ++ NL in
  let reportText := reportText ++ "   - Tipo: " ++ type item ++ NL in
  let reportText := reportText ++ "   - Problema: " ++ issue item ++ NL in
  let reportText := reportText ++ "   - Solução: " ++ solution item ++ NL in
  let reportText := reportText ++ "   - Localização: " ++ location item ++ NL in
  let reportText := reportText ++ optionalLine "Recurso" (resource item) in
  let reportText := reportText ++ optionalLine "Hierarquia" (hierarchy item) in
  let reportText := reportText ++ optionalLine "Tamanho" (size item) in
  let reportText := reportText ++ optionalLine "Contraste" (contrastRatio item) in
  reportText ++ NL.

Fixpoint forEachFrom (index : Z) (report : list Finding) (reportText : string) : string :=
  match report with
  | [] => reportText
  | item :: rest => forEachFrom (index + 1) rest (renderItem index item reportText)
  end.

Definition reportTextOf (report : list Finding) : string :=
  forEachFrom 0 report ("🔍 Relatório de Análise do Site" ++ NL ++ NL).

(** The file at [path] now holds [content]. *)
Definition store (path content : string) : M unit :=
  modify (fun w => {| console := console w;
                      files := write path content (files w);
                      performanceReport := performanceReport w;
                      inflight := inflight w |}).

(** [fs.writeFileSync(path, content)]: a failure after the open leaves
    the part already written in the file. *)
Definition writeFileSync (path content : string) : M unit :=
  match write_outcome path content with
  | Written => store path content
  | FailedAtOpen e => throw e
  | FailedAfter e written => store path (substring 0 written content) ;;; throw e
  end.

Definition log (line : console_log -> console_log) : M unit :=
  modify (fun w => {| console := line (console w);
                      files := files w;
                      performanceReport := performanceReport w;
                      inflight := inflight w |}).

(** [generateReport(report)] (lines 251-269). *)
Definition generateReport (report : list Finding) : M unit :=
  let reportText := reportTextOf report in
  writeFileSync REPORT_FILE reportText ;;;
  log (logSuccess ("Relatório salvo em " ++ REPORT_FILE)).

(** [await analyzePerformance($, htmlLines)]: the evaluator's array and
    the checks it started stay alive in the world; the caller gets the
    array. *)
Definition awaitPerformance (doc : document) (htmlLines : list string)
  : M (list Finding) :=
  fun w =>
    let (report, started) := analyzePerformance doc htmlLines in
    (inr report, {| console := console w;
                    files := files w;
                    performanceReport := report;
                    inflight := started |}).

(** [analyzeSite(url)] (lines 272-301).  A response to a pending image
    check arrives through the event loop, which takes its next turn only
    when this job and its chain of awaits have run to their end; so the
    spread of line 289 reads the array as the evaluator left it, and the
    checks are resumed by [settle] afterwards.  The order in which the
    console lines of different jobs interleave is not modelled. *)
Definition analyzeSite (url : string) : M unit :=
  try_catch
    (data <- attempt (axios_get url) ;;
     doc <- attempt (cheerio_load data) ;;
     let htmlLines := split LF data in
     let seoReport := analyzeSEO doc htmlLines in
     performanceReport <- awaitPerformance doc htmlLines ;;
     accessibilityReport <- attempt (analyzeAccessibility doc htmlLines) ;;
     let brokenLinksReport := analyzeBrokenLinks doc htmlLines in
     let securityReport := analyzeSecurity doc htmlLines in
     let mobileReport := analyzeMobile doc htmlLines in
     let fullReport :=
       (seoReport ++ performanceReport ++ accessibilityReport
        ++ brokenLinksReport ++ securityReport ++ mobileReport)%list in
     generateReport fullReport)
    (fun error => log (logError ("Erro ao analisar o site: " ++ message error))).

(** The last line of the script: [analyzeSite(SITE_URL)]. *)
Definition main : M unit := analyzeSite SITE_URL.

(** One turn of the event loop after the job: the first image check in
    flight settles with [outcome] and the rest of its callback runs on
    the shared array and the console. *)
Definition settle (outcome : head_outcome) (w : world) : world :=
  match inflight w with
  | [] => w
  | pending :: others =>
      let (report, out) := resume pending outcome (performanceReport w, console w) in
      {| console := out;
         files := files w;
         performanceReport := report;
         inflight := others |}
  end.

End Orchestrator.

(** ** Vocabulary of the properties *)

(** The four fields every finding must carry. *)
Definition wellFormed (f : Finding) : bool :=
  nonempty (type f) && nonempty (issue f) && nonempty (solution f)
  && nonempty (location f).

(** How many findings of a report carry a given issue text. *)
Definition countIssue (text : string) (report : list Finding) : nat :=
  List.length (filter (fun f => String.eqb (issue f) text) report).

(** [line] holds [tag] as a literal substring. *)
Definition contains (line tag : string) : Prop :=
  exists before after, line = before ++ tag ++ after.

(** [n] is the 1-based number of the first line that holds [tag], or 0
    when no line does. *)
Definition firstLineHolding (htmlLines : list string) (tag : string) (n : Z) : Prop :=
  (exists k line,
      n = (Z.of_nat k + 1)%Z
      /\ nth_error htmlLines k = Some line
      /\ contains line tag
      /\ forall j earlier, (j < k)%nat -> nth_error htmlLines j = Some earlier ->
                           ~ contains earlier tag)
  \/ (n = 0%Z /\ forall line, In line htmlLines -> ~ contains line tag).

(** The location of [f] is that line number for the serialised [n]. *)
Definition locatedBySearch `{Library} (htmlLines : list string) (n : node) (f : Finding)
  : Prop :=
  exists k, location f = "Linha " ++ showZ k /\ firstLineHolding htmlLines (html n) k.

(** [later] is [earlier] with findings added at its end: nothing that
    was in the array has been changed, dropped or moved. *)
Definition extendedBy (earlier later added : list Finding) : Prop :=
  later = (earlier ++ added)%list.

(** A step on a report array that only adds findings at its end, each
    of them well formed. *)
Definition appendsWellFormed (step : list Finding -> list Finding) : Prop :=
  forall report, exists added,
    extendedBy report (step report) added
    /\ Forall (fun f => wellFormed f = true) added.

(** ** Sample inputs

    A small library and three environments to run the model on: the
    serialisation writes the tag name only, the inline style is read from
    attributes named [style.<property>], and the module of line 5 has a
    [contrast] property, which answers 1 for two equal colours, 4.5 for a
    text in #767676 and 21 for any other pair. *)

Definition sampleLibrary : Library := {|
  html := fun n => match tagName n with
                   | Some name => "<" ++ name ++ ">"
                   | None => EmptyString
                   end;
  css := fun n property => attrib n ("style." ++ property);
  contrast := Some (fun bg fg => if String.eqb bg fg then 1%float
                                 else if String.eqb fg "#767676" then 4.5%float
                                 else 21%float);
  toFixed2 := fun x => if PrimFloat.ltb x 4.5%float then "1.00" else "21.00";
  toNumber := fun s => if String.eqb s "204800" then 204800%float else 0%float
|}.

Definition offline : Environment := {|
  axios_get := fun _ => inl {| message := "Network Error" |};
  cheerio_load := fun _ => inr [];
  write_outcome := fun _ _ => Written
|}.

Definition unparsable : Environment := {|
  axios_get := fun _ => inr "<html>";
  cheerio_load := fun _ => inl {| message := "Unexpected end of input" |};
  write_outcome := fun _ _ => Written
|}.

(** [<html><head></head><body><img src='a.png'></body></html>]. *)
Definition minimalPage : document :=
  [Element "html" []
     [Element "head" [] [];
      Element "body" [] [Element "img" [("src", "a.png")] []]]].

Definition online : Environment := {|
  axios_get := fun _ => inr "<html><head></head><body><img src='a.png'></body></html>";
  cheerio_load := fun _ => inr minimalPage;
  write_outcome := fun _ _ => Written
|}.

(** The script's constants with a target served over https. *)
Definition httpsConfig : Config := {|
  REPORT_FILE := "site-analysis-report.txt";
  MAX_IMAGE_SIZE_KB := 100;
  SITE_URL := "https://cheffycooking.netlify.app"
|}.

Definition emptyWorld : world :=
  {| console := []; files := []; performanceReport := []; inflight := [] |}.

(** A page whose only title has [n] characters. *)
Definition titledPage (n : nat) : document :=
  [Element "html" []
     [Element "head" [] [Element "title" [] [Text (String.concat EmptyString (repeat "t" n))]];
      Element "body" [] []]].

(** [<body><a href=''>x</a><a href='#top'>y</a><a href='https://e.org'>z</a></body>]. *)
Definition linksPage : document :=
  [Element "body" []
     [Element "a" [("href", EmptyString)] [Text "x"];
      Element "a" [("href", "#top")] [Text "y"];
      Element "a" [("href", "https://e.org")] [Text "z"]]].

(** [<a href=''>x</a>] alone. *)
Definition emptyLinkPage : document :=
  [Element "a" [("href", EmptyString)] [Text "x"]].

(** [<head><script src=''></script><script src='a.js'></script>
    <script src='b.js' defer></script><script>x</script></head>]. *)
Definition scriptsPage : document :=
  [Element "head" []
     [Element "script" [("src", EmptyString)] [];
      Element "script" [("src", "a.js")] [];
      Element "script" [("src", "b.js"); ("defer", EmptyString)] [];
      Element "script" [] [Text "x"]]].

(** [<script src=''></script>] alone. *)
Definition emptySrcPage : document :=
  [Element "script" [("src", EmptyString)] []].

(** A page with an image without [alt], one with an empty [alt], one
    with a description, inside a styled block. *)
Definition imagesPage : document :=
  [Element "body" []
     [Element "div" [("id", "main"); ("class", "hero wide");
                     ("style.background-color", "#fff"); ("style.color", "#fff")]
        [Element "img" [("src", "a.png")] [];
         Element "img" [("src", "b.png"); ("alt", EmptyString)] [];
         Element "img" [("src", "c.png"); ("alt", "A cat")] []];
      Element "p" [("style.background-color", "#fff"); ("style.color", "#000")]
        [Text "hello";
         Element "span" [("style.background-color", "#fff"); ("style.color", "#767676")]
           [Text "world"]]]].

Definition nowhere : cursor := {| here := Text EmptyString; above := [] |}.

(** The second script of [scriptsPage] and the second image of
    [imagesPage]; the block, the paragraph and the span of [imagesPage]. *)
Definition plainScript : cursor := nth 1 (select (ByTag "script") scriptsPage) nowhere.
Definition emptyAltImage : cursor := nth 1 (select (ByTag "img") imagesPage) nowhere.
Definition describedImage : cursor := nth 2 (select (ByTag "img") imagesPage) nowhere.
Definition whiteOnWhite : cursor := nth 1 (select Universal imagesPage) nowhere.
Definition blackOnWhite : cursor := nth 5 (select Universal imagesPage) nowhere.
Definition greyOnWhite : cursor := nth 6 (select Universal imagesPage) nowhere.

(** ** Further sample inputs *)

(** A page with a title, a meta description of [n] characters, a
    heading and a viewport. *)
Definition describedPage (n : nat) : document :=
  [Element "html" []
     [Element "head" []
        [Element "title" [] [Text "Home"];
         Element "meta" [("name", "description");
                         ("content", String.concat EmptyString (repeat "d" n))] [];
         Element "meta" [("name", "viewport"); ("content", "width=device-width")] []];
      Element "body" [] [Element "h2" [] [Text "News"]]]].

(** A page whose first viewport meta has no content and whose second
    one has. *)
Definition twoViewportsPage : document :=
  [Element "head" []
     [Element "meta" [("name", "viewport")] [];
      Element "meta" [("name", "viewport"); ("content", "width=device-width")] []]].

(** Four images: a plain one, an inline [data:] one, one without [src]
    and one with an empty [src]. *)
Definition galleryPage : document :=
  [Element "body" []
     [Element "img" [("src", "big.png"); ("alt", "Big")] [];
      Element "img" [("src", "data:image/png;base64,AAAA"); ("alt", "Dot")] [];
      Element "img" [("alt", "None")] [];
      Element "img" [("src", EmptyString); ("alt", "Empty")] []]].

Definition bigImage : cursor := nth 0 (select (ByTag "img") galleryPage) nowhere.

(** The page answers and parses, the disk refuses the write. *)
Definition readOnlyDisk : Environment := {|
  axios_get := fun _ => inr "<html><head></head><body><img src='a.png'></body></html>";
  cheerio_load := fun _ => inr minimalPage;
  write_outcome := fun _ _ => FailedAtOpen {| message := "EACCES: permission denied" |}
|}.

(** A serialisation that spreads an element over two lines. *)
Definition twoLineLibrary : Library := {|
  html := fun n => match tagName n with
                   | Some name => "<" ++ name ++ String LF ">"
                   | None => EmptyString
                   end;
  css := fun _ _ => None;
  contrast := Some (fun _ _ => 21%float);
  toFixed2 := fun _ => "21.00";
  toNumber := fun _ => 0%float
|}.

(** The module of line 5 as a bare function: it has no property named
    [contrast], so the binding of the script is [undefined]. *)
Definition bareFunctionLibrary : Library := {|
  html := @html sampleLibrary;
  css := @css sampleLibrary;
  contrast := None;
  toFixed2 := @toFixed2 sampleLibrary;
  toNumber := @toNumber sampleLibrary
|}.

(** [<p style='background-color:#fff;color:#fff'>x</p>] alone. *)
Definition colouredPage : document :=
  [Element "p" [("style.background-color", "#fff"); ("style.color", "#fff")] [Text "x"]].

(** The site serves [imagesPage]; the disk takes every write. *)
Definition styledSite : Environment := {|
  axios_get := fun _ => inr "<body>";
  cheerio_load := fun _ => inr imagesPage;
  write_outcome := fun _ _ => Written
|}.

(** The page answers and parses, the disk is full after ten code units. *)
Definition fullDisk : Environment := {|
  axios_get := fun _ => inr "<html><head></head><body><img src='a.png'></body></html>";
  cheerio_load := fun _ => inr minimalPage;
  write_outcome := fun _ _ => FailedAfter {| message := "ENOSPC: no space left on device" |} 10
|}.

(** ** Further vocabulary *)

(** [s] with every [old] code unit replaced by [new]. *)
Fixpoint replaceChar (old new : ascii) (s : string) : string :=
  match s with
  | EmptyString => EmptyString
  | String c rest =>
      String (if Ascii.eqb c old then new else c) (replaceChar old new rest)
  end.

(** The code units of a string. *)
Fixpoint units (s : string) : list ascii :=
  match s with
  | EmptyString => []
  | String c rest => c :: units rest
  end.

(** The entry of a node in a hierarchy path. *)
Definition entryOf (n : node) : string :=
  match tagName n with
  | Some name => hierarchyEntry name n
  | None => EmptyString
  end.

(** The element has a tag name, and not the empty one. *)
Definition named (n : node) : Prop :=
  exists name, tagName n = Some name /\ nonempty name = true.

(** The line of an optional field in a block of the report: none when
    the field is unset or empty. *)
Definition fieldLine (label : string) (field : option string) : string :=
  match field with
  | Some (String c rest) =>
      "   - " ++ label ++ ": " ++ String c rest ++ String (ascii_of_nat 10) EmptyString
  | _ => EmptyString
  end.

(** The block of the report for the finding that is the [number]-th of
    the list, written out line by line. *)
Definition blockText (number : nat) (item : Finding) : string :=
  let nl := String (ascii_of_nat 10) EmptyString in
  "📌 Problema " ++ NilZero.string_of_int (Z.to_int (Z.of_nat number)) ++ ":" ++ nl
  ++ "   - Tipo: " ++ type item ++ nl
  ++ "   - Problema: " ++ issue item ++ nl
  ++ "   - Solução: " ++ solution item ++ nl
  ++ "   - Localização: " ++ location item ++ nl
  ++ fieldLine "Recurso" (resource item)
  ++ fieldLine "Hierarquia" (hierarchy item)
  ++ fieldLine "Tamanho" (size item)
  ++ fieldLine "Contraste" (contrastRatio item)
  ++ nl.

(** The blocks of [report], its first finding being the [first]-th. *)
Definition blockTexts (first : nat) (report : list Finding) : string :=
  String.concat EmptyString
    (map (fun entry => blockText (fst entry) (snd entry))
         (combine (seq first (List.length report)) report)).

(** The block of the report for the finding at [index]. *)
Definition blockOf (index : Z) (item : Finding) : string :=
  renderItem index item EmptyString.

(** The blocks of the findings of [report], numbered from [index]. *)
Fixpoint blocksFrom (index : Z) (report : list Finding) : string :=
  match report with
  | [] => EmptyString
  | item :: rest => blockOf index item ++ blocksFrom (index + 1) rest
  end.

(** The location of [f] is the word Linha followed by the decimal
    digits of the 1-based number of the first line that holds the
    serialised [n], or of 0 when no line holds it. *)
Definition reportsFirstLine `{Library} (htmlLines : list string) (n : node) (f : Finding)
  : Prop :=
  exists k, location f = "Linha " ++ NilZero.string_of_int (Z.to_int k)
            /\ firstLineHolding htmlLines (html n) k.

(** The location of [f] names a line number between 0 and the number
    of lines. *)
Definition locatedWithin (htmlLines : list string) (f : Finding) : Prop :=
  exists k, location f = "Linha " ++ showZ k
            /\ (0 <= k <= Z.of_nat (List.length htmlLines))%Z.

(** Structural induction on a tree, with the property available for
    every child of an element. *)
Section NodeInduction.

Variable P : node -> Prop.
Hypothesis onElement :
  forall name attribs children, Forall P children -> P (Element name attribs children).
Hypothesis onText : forall data, P (Text data).
Hypothesis onComment : forall data, P (Comment data).

Fixpoint node_induction (n : node) : P n :=
  match n with
  | Element name attribs children =>
      onElement name attribs children
        ((fix all (l : list node) : Forall P l :=
            match l with
            | [] => Forall_nil P
            | child :: rest => Forall_cons child (node_induction child) (all rest)
            end) children)
  | Text data => onText data
  | Comment data => onComment data
  end.

End NodeInduction.

(** ** Properties of the primitives *)

Module JSFacts.

Lemma nonempty_true_iff (s : string) : nonempty s = true <-> s <> EmptyString.
Proof.
  destruct s; simpl; split; intro H; congruence.
Qed.

Lemma nonempty_app_l (s t : string) : nonempty s = true -> nonempty (s ++ t) = true.
Proof. destruct s; simpl; [discriminate | reflexivity]. Qed.

Lemma nonempty_app_r (s t : string) : nonempty t = true -> nonempty (s ++ t) = true.
Proof. destruct s; simpl; [intro H; exact H | reflexivity]. Qed.

(** [String.prefix] against the concatenation it stands for. *)
Lemma prefix_iff_app (p s : string) :
  String.prefix p s = true <-> exists rest, s = p ++ rest.
Proof.
  revert s; induction p as [|c p IH]; intros s.
  - split; [intros _; now exists s | intros _; now destruct s].
  - destruct s as [|d s]; simpl.
    + split; [discriminate | intros [rest H]; discriminate].
    + destruct (ascii_dec c d) as [->|Hne].
      * rewrite IH. split; intros [rest H]; exists rest; [now subst | now injection H].
      * split; [discriminate | intros [rest H]; injection H; congruence].
Qed.

Lemma includes_unfold (s needle : string) :
  includes s needle =
  if String.prefix needle s then true
  else match s with
       | EmptyString => false
       | String _ rest => includes rest needle
       end.
Proof. destruct s; reflexivity. Qed.

(** [includes] finds exactly the literal substrings. *)
Lemma includes_iff (s needle : string) :
  includes s needle = true <-> exists before after, s = before ++ needle ++ after.
Proof.
  induction s as [|c s IH]; rewrite includes_unfold.
  - destruct (String.prefix needle EmptyString) eqn:E.
    + split; [intros _ | reflexivity].
      apply prefix_iff_app in E as [rest E]. now exists EmptyString, rest.
    + split; [discriminate | intros [before [after H]]].
      destruct before; simpl in H; [|discriminate].
      assert (String.prefix needle EmptyString = true) by (apply prefix_iff_app; eauto).
      congruence.
  - destruct (String.prefix needle (String c s)) eqn:E.
    + split; [intros _ | reflexivity].
      apply prefix_iff_app in E as [rest E]. now exists EmptyString, rest.
    + rewrite IH. split.
      * intros [before [after H]]. exists (String c before), after. simpl. now rewrite H.
      * intros [before [after H]]. destruct before as [|d before]; simpl in H.
        -- assert (String.prefix needle (String c s) = true) by (apply prefix_iff_app; eauto).
           congruence.
        -- injection H as _ H. now exists before, after.
Qed.

Lemma toLowerCase_nonempty (s : string) : nonempty (toLowerCase s) = nonempty s.
Proof. destruct s; reflexivity. Qed.

(** [join] leaves a non-empty string when the last part is non-empty. *)
Lemma join_last_nonempty (sep : string) (parts : list string) (last : string) :
  nonempty last = true -> nonempty (join sep (parts ++ [last])) = true.
Proof.
  intros H. induction parts as [|p parts IH]; simpl.
  - exact H.
  - destruct (parts ++ [last])%list eqn:E.
    + now destruct parts.
    + apply nonempty_app_r, nonempty_app_r. exact IH.
Qed.

(** [findIndexFrom] answers the position of the first hit, counted from
    its start, or -1 when nothing hits. *)
Lemma findIndexFrom_spec {A : Type} (p : A -> bool) (xs : list A) (i : Z) :
  (findIndexFrom p xs i = (-1)%Z /\ forall x, In x xs -> p x = false)
  \/ (exists k x, findIndexFrom p xs i = (i + Z.of_nat k)%Z
                  /\ nth_error xs k = Some x /\ p x = true
                  /\ forall j y, (j < k)%nat -> nth_error xs j = Some y -> p y = false).
Proof.
  revert i; induction xs as [|x xs IH]; intros i; simpl.
  - left. split; [reflexivity | intros x []].
  - destruct (p x) eqn:Hx.
    + right. exists 0%nat, x. repeat split; [lia | assumption |].
      intros j y Hj. lia.
    + destruct (IH (i + 1)%Z) as [[Hnone Hall] | [k [y [Hk [Hnth [Hy Hbefore]]]]]].
      * left. split; [assumption |]. intros y [<- | Hy]; auto.
      * right. exists (S k), y. repeat split; [lia | assumption | assumption |].
        intros [|j] z Hj Hz; simpl in Hz.
        -- now injection Hz as <-.
        -- apply (Hbefore j); [lia | assumption].
Qed.

End JSFacts.

(** ** The evaluators as one contribution per element *)

(** Taking the cases of the contrast callback apart. *)
Ltac contrast_cases element :=
  destruct (css (here element) "background-color") as [?bg|];
  [destruct (css (here element) "color") as [?fg|];
   [match goal with
    | |- context [nonempty ?b && nonempty ?f] =>
        destruct (nonempty b && nonempty f);
        [destruct contrast as [?ratio|];
         [match goal with
          | |- context [PrimFloat.ltb ?x ?y] => destruct (PrimFloat.ltb x y)
          end |] |]
    end |] |].

Section EvaluatorFacts.

Context {cfg : Config} {lib : Library}.

Lemma each_appends (callback : cursor -> list Finding -> list Finding) :
  (forall c r, callback c r = (r ++ callback c [])%list) ->
  forall sel r, each sel callback r = (r ++ flat_map (fun c => callback c []) sel)%list.
Proof.
  intros Happ sel. unfold each.
  induction sel as [|c sel IH]; intros r; simpl.
  - now rewrite app_nil_r.
  - rewrite IH, (Happ c r). now rewrite <- app_assoc.
Qed.

Lemma scriptCallback_appends htmlLines c r :
  scriptCallback htmlLines c r = (r ++ scriptCallback htmlLines c [])%list.
Proof.
  unfold scriptCallback, push.
  destruct (attr c "src") as [s|]; [|now rewrite app_nil_r].
  destruct (nonempty s && negb (defined (attr c "async"))
            && negb (defined (attr c "defer"))); [reflexivity | now rewrite app_nil_r].
Qed.

Lemma altCallback_appends htmlLines c r :
  altCallback htmlLines c r = (r ++ altCallback htmlLines c [])%list.
Proof.
  unfold altCallback, push.
  destruct (negb (truthy (attr c "alt"))); [reflexivity | now rewrite app_nil_r].
Qed.

Lemma contrastCallback_appends htmlLines c r :
  contrastCallback htmlLines c r
  = (fst (contrastCallback htmlLines c []),
     (r ++ snd (contrastCallback htmlLines c []))%list).
Proof.
  unfold contrastCallback, push.
  contrast_cases c; simpl; rewrite ?app_nil_r; reflexivity.
Qed.

(** A loop that can throw runs its callback on the elements up to and
    with the one that throws, and on all of them when none throws. *)
Lemma eachThrowing_appends (callback : cursor -> list Finding -> outcome) :
  (forall c r, callback c r = (fst (callback c []), (r ++ snd (callback c []))%list)) ->
  forall sel r,
    exists reached rest,
      sel = (reached ++ rest)%list
      /\ snd (eachThrowing sel callback r)
         = (r ++ flat_map (fun c => snd (callback c [])) reached)%list
      /\ (fst (eachThrowing sel callback r) = None -> rest = []).
Proof.
  intros Happ sel. induction sel as [|c sel IH]; intros r.
  - exists [], []. simpl. rewrite app_nil_r. auto.
  - simpl. rewrite (Happ c r).
    destruct (fst (callback c [])) as [e|].
    + exists [c], sel. simpl. rewrite app_nil_r. repeat split. discriminate.
    + destruct (IH (r ++ snd (callback c []))%list) as [reached [rest [-> [Hsnd Hfst]]]].
      exists (c :: reached), rest. simpl. rewrite Hsnd, <- app_assoc. auto.
Qed.

Lemma linkCallback_appends htmlLines c r :
  linkCallback htmlLines c r = (r ++ linkCallback htmlLines c [])%list.
Proof.
  unfold linkCallback, push.
  destruct (attr c "href") as [h|]; [|now rewrite app_nil_r].
  destruct (nonempty h && (startsWith h "#" || String.eqb h EmptyString));
    [reflexivity | now rewrite app_nil_r].
Qed.

Lemma imageResume_appends htmlLines img src outcome r console :
  fst (imageResume htmlLines img src outcome (r, console))
  = (r ++ fst (imageResume htmlLines img src outcome ([], console)))%list.
Proof.
  unfold imageResume, push.
  destruct outcome as [[bytes|]|]; simpl; try now rewrite app_nil_r.
  destruct (nonempty bytes
            && PrimFloat.ltb (numberOfZ (MAX_IMAGE_SIZE_KB * 1024)) (toNumber bytes));
    simpl; [reflexivity | now rewrite app_nil_r].
Qed.

Lemma analyzePerformance_report doc htmlLines :
  fst (analyzePerformance doc htmlLines)
  = flat_map (fun c => scriptCallback htmlLines c []) (select (ByTag "script") doc).
Proof.
  unfold analyzePerformance; simpl.
  now rewrite (each_appends _ (scriptCallback_appends htmlLines)).
Qed.

(** The array of the Accessibility evaluator holds what the alt loop
    added for every image, then what the contrast loop added for the
    elements it reached. *)
Lemma accessibilityBody_report doc htmlLines :
  exists reached rest,
    select Universal doc = (reached ++ rest)%list
    /\ snd (accessibilityBody doc htmlLines)
       = (flat_map (fun c => altCallback htmlLines c []) (select (ByTag "img") doc)
          ++ flat_map (fun c => snd (contrastCallback htmlLines c [])) reached)%list
    /\ (fst (accessibilityBody doc htmlLines) = None -> rest = []).
Proof.
  unfold accessibilityBody.
  rewrite (each_appends _ (altCallback_appends htmlLines)). simpl app.
  apply eachThrowing_appends. apply contrastCallback_appends.
Qed.

(** What the evaluator answers is its array when nothing was thrown. *)
Lemma analyzeAccessibility_returned doc htmlLines report :
  analyzeAccessibility doc htmlLines = inr report ->
  accessibilityBody doc htmlLines = (None, report).
Proof.
  unfold analyzeAccessibility.
  destruct (accessibilityBody doc htmlLines) as [[e|] r]; [discriminate |].
  now intros [= ->].
Qed.

Lemma analyzeBrokenLinks_report doc htmlLines :
  analyzeBrokenLinks doc htmlLines
  = flat_map (fun c => linkCallback htmlLines c []) (select (ByTag "a") doc).
Proof.
  unfold analyzeBrokenLinks.
  now rewrite (each_appends _ (linkCallback_appends htmlLines)).
Qed.

(** The search of the callbacks answers the first line that holds the tag. *)
Lemma findIndex_firstLineHolding htmlLines tag :
  firstLineHolding htmlLines tag
    (findIndex (fun line => includes line tag) htmlLines + 1).
Proof.
  unfold findIndex.
  destruct (JSFacts.findIndexFrom_spec (fun line => includes line tag) htmlLines 0)
    as [[Hnone Hall] | [k [line [Hk [Hnth [Hhit Hbefore]]]]]].
  - right. rewrite Hnone. split; [reflexivity |].
    intros line Hin Hc. apply JSFacts.includes_iff in Hc.
    rewrite (Hall line Hin) in Hc. discriminate.
  - left. exists k, line. rewrite Hk. repeat split; trivial.
    + now apply JSFacts.includes_iff.
    + intros j earlier Hj Hnthj Hc. apply JSFacts.includes_iff in Hc.
      rewrite (Hbefore j earlier Hj Hnthj) in Hc. discriminate.
Qed.

Lemma located htmlLines n f :
  location f
  = "Linha " ++ showZ (findIndex (fun line => includes line (html n)) htmlLines + 1) ->
  locatedBySearch htmlLines n f.
Proof.
  intros H. eexists. split; [exact H | apply findIndex_firstLineHolding].
Qed.

Lemma filter_all {A : Type} (p : A -> bool) (xs : list A) :
  Forall (fun x => p x = true) xs -> filter p xs = xs.
Proof.
  induction 1 as [|x xs Hx _ IH]; simpl; [reflexivity |].
  now rewrite Hx, IH.
Qed.

Lemma filter_none {A : Type} (p : A -> bool) (xs : list A) :
  Forall (fun x => p x = false) xs -> filter p xs = [].
Proof.
  induction 1 as [|x xs Hx _ IH]; simpl; [reflexivity |].
  now rewrite Hx.
Qed.

Lemma Forall_flat_map {A B : Type} (P : B -> Prop) (g : A -> list B) (xs : list A) :
  (forall x, In x xs -> Forall P (g x)) -> Forall P (flat_map g xs).
Proof.
  intros H. apply Forall_forall. intros y Hy.
  apply in_flat_map in Hy as [x [Hx Hy]].
  exact (proj1 (Forall_forall P (g x)) (H x Hx) y Hy).
Qed.

End EvaluatorFacts.

(** ** Broken links *)

(** What the link callback adds for one [<a>], by its [href]: one
    finding for a fragment link, none for an absolute https link, and
    none for an empty [href], which the guard [href && ...] rejects
    before [href === ''] is looked at. *)
Lemma linkCallback_by_href {lib : Library} htmlLines (link : cursor) (h : string) :
  attr link "href" = Some h ->
  (startsWith h "#" = true ->
   exists f, linkCallback htmlLines link [] = [f] /\ resource f = Some h)
  /\ (startsWith h "https://" = true -> linkCallback htmlLines link [] = [])
  /\ (h = EmptyString -> linkCallback htmlLines link [] = []).
Proof.
  intros Hh. unfold linkCallback, push. rewrite Hh. repeat split.
  - intros Hfrag. destruct h as [|c h]; [discriminate |].
    simpl nonempty. rewrite Hfrag. simpl. eexists. split; reflexivity.
  - intros Hs. apply JSFacts.prefix_iff_app in Hs as [rest ->]. reflexivity.
  - intros ->. reflexivity.
Qed.

(** C1, at the input where the script departs from it: the page
    [<a href=''>x</a>] has one link whose [href] is exactly the empty
    string, and the Broken-Links evaluator reports nothing for it. *)
Theorem empty_href_is_not_reported {lib : Library} (htmlLines : list string) :
  exists link,
    select (ByTag "a") emptyLinkPage = [link]
    /\ attr link "href" = Some EmptyString
    /\ analyzeBrokenLinks emptyLinkPage htmlLines = [].
Proof.
  eexists. repeat split.
Qed.

(** ** Performance *)

Lemma scriptCallback_issue {lib : Library} htmlLines script :
  Forall (fun f => issue f = "Script bloqueante") (scriptCallback htmlLines script []).
Proof.
  unfold scriptCallback, push.
  destruct (attr script "src") as [s|]; [|constructor].
  destruct (nonempty s && negb (defined (attr script "async"))
            && negb (defined (attr script "defer"))); simpl; repeat constructor.
Qed.

(** C2: when the Performance evaluator returns, its report holds the
    findings of the blocking-script loop and nothing else: every finding
    is a blocking-script one, none is an image-size one, and each image
    check it started is still suspended at its request. *)
Theorem performance_report_holds_scripts_only {cfg : Config} {lib : Library}
  (doc : document) (htmlLines : list string) :
  Forall (fun f => issue f = "Script bloqueante") (fst (analyzePerformance doc htmlLines))
  /\ countIssue "Imagem muito grande" (fst (analyzePerformance doc htmlLines)) = 0%nat
  /\ snd (analyzePerformance doc htmlLines)
     = eachAsync (select (ByTag "img") doc) (imageCallback htmlLines).
Proof.
  assert (H : Forall (fun f => issue f = "Script bloqueante")
                (fst (analyzePerformance doc htmlLines))).
  { rewrite analyzePerformance_report. apply Forall_flat_map.
    intros script _. apply scriptCallback_issue. }
  split; [exact H | split; [| reflexivity]].
  unfold countIssue. rewrite filter_none; [reflexivity |].
  revert H. apply Forall_impl. intros f ->. reflexivity.
Qed.

(** The same array after the evaluator has returned: when a suspended
    check gets a response whose length exceeds the limit, the rest of the
    callback pushes an image-size finding onto it. *)
Lemma settle_can_push_image_finding :
  let w := snd (@analyzeSite sourceConfig sampleLibrary online "u" emptyWorld) in
  performanceReport w = []
  /\ map issue (performanceReport (settle (Responded (Some "204800")) w))
     = ["Imagem muito grande"].
Proof. split; reflexivity. Qed.

(** What the script callback adds for one [<script>]. *)
Lemma scriptCallback_cases {lib : Library} htmlLines (script : cursor) :
  (truthy (attr script "src") = true
   /\ attr script "async" = None /\ attr script "defer" = None ->
   exists f, scriptCallback htmlLines script [] = [f]
             /\ issue f = "Script bloqueante"
             /\ resource f = attr script "src")
  /\ (truthy (attr script "src") = false
      \/ defined (attr script "async") = true
      \/ defined (attr script "defer") = true ->
      scriptCallback htmlLines script [] = []).
Proof.
  unfold scriptCallback, push. split.
  - intros [Hsrc [-> ->]]. destruct (attr script "src") as [s|]; [|discriminate].
    simpl in Hsrc. rewrite Hsrc. simpl. eexists. repeat split.
  - intros H. destruct (attr script "src") as [s|]; [|reflexivity].
    simpl in H. destruct H as [-> | [-> | ->]]; simpl;
      [reflexivity | now rewrite andb_false_r | now rewrite andb_false_r].
Qed.

(** C6 as the script has it: the report of the Performance evaluator is
    made of the contributions of the [<script>] elements in document
    order; an element with a non-empty [src] and neither [async] nor
    [defer] contributes exactly one blocking-script finding, and an
    element whose [src] is absent or empty, or that carries [async] or
    [defer], contributes none. *)
Theorem blocking_script_findings {cfg : Config} {lib : Library}
  (doc : document) (htmlLines : list string) :
  fst (analyzePerformance doc htmlLines)
  = flat_map (fun script => scriptCallback htmlLines script [])
             (select (ByTag "script") doc)
  /\ forall script,
       (truthy (attr script "src") = true
        /\ attr script "async" = None /\ attr script "defer" = None ->
        exists f, scriptCallback htmlLines script [] = [f]
                  /\ issue f = "Script bloqueante"
                  /\ resource f = attr script "src")
       /\ (truthy (attr script "src") = false
           \/ defined (attr script "async") = true
           \/ defined (attr script "defer") = true ->
           scriptCallback htmlLines script [] = []).
Proof.
  split; [apply analyzePerformance_report | intros script; apply scriptCallback_cases].
Qed.

(** C6 on the sample page of four scripts: the report holds the second
    one only, which has a non-empty [src] and no marker. *)
Lemma blocking_script_findings_witness :
  In plainScript (select (ByTag "script") scriptsPage)
  /\ map resource (fst (@analyzePerformance sourceConfig sampleLibrary scriptsPage []))
     = [Some "a.js"]
  /\ exists f, @scriptCallback sampleLibrary [] plainScript [] = [f]
               /\ resource f = Some "a.js".
Proof.
  destruct (@blocking_script_findings sourceConfig sampleLibrary scriptsPage [])
    as [Hreport Hscript].
  split; [right; left; reflexivity | split].
  - rewrite Hreport. reflexivity.
  - destruct (proj1 (Hscript plainScript)) as [f [Hf [_ Hres]]].
    + repeat split.
    + exists f. split; [exact Hf | exact Hres].
Defined.

(** C6 as stated fails: the only script of [<script src=''></script>]
    has a [src] attribute and lacks both [async] and [defer], yet the
    Performance evaluator reports no finding instead of one. *)
Lemma empty_src_script_is_not_reported :
  exists script,
    select (ByTag "script") emptySrcPage = [script]
    /\ defined (attr script "src") = true
    /\ attr script "async" = None
    /\ attr script "defer" = None
    /\ fst (@analyzePerformance sourceConfig sampleLibrary emptySrcPage []) = [].
Proof.
  eexists. repeat split.
Qed.

(** ** Security *)

(** C10: the Security evaluator answers the same list for any two trees
    and line arrays; the list is empty when [SITE_URL] starts with
    [https://] and holds the one transport finding otherwise, so two
    configurations that agree on that test get the same list. *)
Theorem security_report_ignores_document (cfg1 cfg2 : Config)
  (doc1 doc2 : document) (lines1 lines2 : list string) :
  @analyzeSecurity cfg1 doc1 lines1 = @analyzeSecurity cfg1 doc2 lines2
  /\ @analyzeSecurity cfg1 doc1 lines1
     = (if startsWith (@SITE_URL cfg1) "https://" then []
        else [{| type := "Segurança";
                 issue := "Site não utiliza HTTPS";
                 solution := "Configure o site para usar HTTPS.";
                 location := "URL do site";
                 resource := None; hierarchy := None;
                 size := None; contrastRatio := None |}])
  /\ (startsWith (@SITE_URL cfg1) "https://" = startsWith (@SITE_URL cfg2) "https://" ->
      @analyzeSecurity cfg1 doc1 lines1 = @analyzeSecurity cfg2 doc2 lines2).
Proof.
  unfold analyzeSecurity, checkHttps, push. repeat split.
  - now destruct (startsWith SITE_URL "https://").
  - intros ->. reflexivity.
Qed.

(** ** SEO: the title check *)

Lemma countIssue_app text (r1 r2 : list Finding) :
  countIssue text (r1 ++ r2) = (countIssue text r1 + countIssue text r2)%nat.
Proof. unfold countIssue. now rewrite filter_app, length_app. Qed.

(** The two later checks of the SEO evaluator never add a title finding. *)
Lemma later_checks_keep_title_count doc text report :
  text = "Título ausente" \/ text = "Título muito longo" ->
  countIssue text (checkHeadings doc (checkDescription doc report))
  = countIssue text report.
Proof.
  intros Htext. unfold checkHeadings, checkDescription, push.
  destruct (attrFirst (select (ByTagAttr "meta" "name" "description") doc) "content")
    as [content|]; simpl truthy; cbv beta iota zeta;
    repeat match goal with
           | |- context [if ?b then _ else _] => destruct b
           end;
    rewrite ?countIssue_app; destruct Htext as [-> | ->]; cbn; lia.
Qed.

(** C3: on a page without any [<title>] the SEO evaluator reports the
    missing title exactly once and no over-long title; when the title
    text has 61 characters it reports the over-long title, and when it
    has 60 it does not. *)
Theorem seo_title_findings (doc : document) (htmlLines : list string) :
  (select (ByTag "title") doc = [] ->
   countIssue "Título ausente" (analyzeSEO doc htmlLines) = 1%nat
   /\ countIssue "Título muito longo" (analyzeSEO doc htmlLines) = 0%nat)
  /\ (String.length (text (select (ByTag "title") doc)) = 61%nat ->
      countIssue "Título muito longo" (analyzeSEO doc htmlLines) = 1%nat)
  /\ (String.length (text (select (ByTag "title") doc)) = 60%nat ->
      countIssue "Título muito longo" (analyzeSEO doc htmlLines) = 0%nat).
Proof.
  unfold analyzeSEO. split; [| split].
  - intros Hnone. split.
    + rewrite later_checks_keep_title_count by now left.
      unfold checkTitle. now rewrite Hnone.
    + rewrite later_checks_keep_title_count by now right.
      unfold checkTitle. now rewrite Hnone.
  - intros Hlen. rewrite later_checks_keep_title_count by now right.
    unfold checkTitle.
    destruct (text (select (ByTag "title") doc)) as [|c title]; [discriminate |].
    simpl nonempty. now rewrite Hlen.
  - intros Hlen. rewrite later_checks_keep_title_count by now right.
    unfold checkTitle.
    destruct (text (select (ByTag "title") doc)) as [|c title]; [discriminate |].
    simpl nonempty. now rewrite Hlen.
Qed.

(** C3 on three sample pages: one without a title, one whose title has
    61 characters, one whose title has 60. *)
Lemma seo_title_findings_witness :
  (countIssue "Título ausente" (analyzeSEO minimalPage []) = 1%nat
   /\ countIssue "Título muito longo" (analyzeSEO minimalPage []) = 0%nat)
  /\ countIssue "Título muito longo" (analyzeSEO (titledPage 61) []) = 1%nat
  /\ countIssue "Título muito longo" (analyzeSEO (titledPage 60) []) = 0%nat.
Proof.
  split; [| split].
  - apply (proj1 (seo_title_findings minimalPage [])). reflexivity.
  - apply (proj1 (proj2 (seo_title_findings (titledPage 61) []))). reflexivity.
  - apply (proj2 (proj2 (seo_title_findings (titledPage 60) []))). reflexivity.
Defined.

(** ** Accessibility: images without a description *)

Lemma climb_onto (parents : list node) :
  forall current hierarchy,
    climb current parents hierarchy = (climb current parents [] ++ hierarchy)%list.
Proof.
  induction parents as [|parent further IH]; intros current hierarchy; simpl;
    destruct (tagName current) as [name|]; try reflexivity;
    destruct (nonempty name); try reflexivity.
  rewrite (IH parent (_ :: hierarchy)), (IH parent [_]).
  now rewrite <- app_assoc.
Qed.

Lemma hierarchyEntry_nonempty name current :
  nonempty name = true -> nonempty (hierarchyEntry name current) = true.
Proof.
  intros H. unfold hierarchyEntry. apply JSFacts.nonempty_app_l.
  now rewrite JSFacts.toLowerCase_nonempty.
Qed.

(** The path of an element with a tag name is never empty: its last
    entry is the element's own. *)
Lemma getElementHierarchy_nonempty (element : cursor) (name : string) :
  tagName (here element) = Some name -> nonempty name = true ->
  nonempty (getElementHierarchy element) = true.
Proof.
  intros Htag Hname. unfold getElementHierarchy.
  assert (H : exists before,
             climb (here element) (above element) []
             = (before ++ [hierarchyEntry name (here element)])%list).
  { destruct (above element) as [|parent further]; simpl; rewrite Htag, Hname.
    - now exists [].
    - rewrite climb_onto. eauto. }
  destruct H as [before ->].
  apply JSFacts.join_last_nonempty, hierarchyEntry_nonempty, Hname.
Qed.

(** When the element and all its ancestors have a tag name, the path
    lists their entries from the outermost ancestor down to the element. *)
Lemma climb_all_named (parents : list node) :
  forall current,
    Forall (fun n => exists name, tagName n = Some name /\ nonempty name = true)
           (current :: parents) ->
    climb current parents []
    = rev (map (fun n => match tagName n with
                         | Some name => hierarchyEntry name n
                         | None => EmptyString
                         end) (current :: parents)).
Proof.
  induction parents as [|parent further IH]; intros current Hall;
    inversion Hall as [|? ? [name [Htag Hname]] Hrest]; subst; simpl;
    rewrite Htag, Hname.
  - reflexivity.
  - rewrite climb_onto, (IH parent Hrest). reflexivity.
Qed.

Lemma selected_by_tag tag doc (c : cursor) :
  In c (select (ByTag tag) doc) -> tagName (here c) = Some tag.
Proof.
  unfold select. intros H. apply filter_In in H as [_ H].
  simpl in H. unfold hasName in H.
  destruct (tagName (here c)) as [name|]; [|discriminate].
  apply String.eqb_eq in H. now subst.
Qed.

Lemma altCallback_has_hierarchy {lib : Library} htmlLines img :
  Forall (fun f => defined (hierarchy f) = true) (altCallback htmlLines img []).
Proof.
  unfold altCallback, push.
  destruct (negb (truthy (attr img "alt"))); simpl; repeat constructor.
Qed.

Lemma contrastCallback_has_ratio {lib : Library} htmlLines element :
  Forall (fun f => defined (contrastRatio f) = true /\ defined (hierarchy f) = false)
         (snd (contrastCallback htmlLines element [])).
Proof.
  unfold contrastCallback, push.
  contrast_cases element; simpl; repeat constructor.
Qed.

Lemma altCallback_has_no_ratio {lib : Library} htmlLines img :
  Forall (fun f => defined (contrastRatio f) = false) (altCallback htmlLines img []).
Proof.
  unfold altCallback, push.
  destruct (negb (truthy (attr img "alt"))); simpl; repeat constructor.
Qed.

(** What the alt callback adds for one image: one finding with the
    non-empty path of the image when its [alt] is absent or empty, none
    otherwise. *)
Lemma altCallback_by_alt {lib : Library} doc htmlLines img :
  In img (select (ByTag "img") doc) ->
  (truthy (attr img "alt") = false ->
   exists f, altCallback htmlLines img [] = [f]
             /\ hierarchy f = Some (getElementHierarchy img)
             /\ nonempty (getElementHierarchy img) = true)
  /\ (truthy (attr img "alt") = true -> altCallback htmlLines img [] = []).
Proof.
  intros Himg. apply selected_by_tag in Himg.
  unfold altCallback, push. split; intros ->; simpl; [|reflexivity].
  eexists. repeat split.
  now apply (getElementHierarchy_nonempty img "img").
Qed.

(** When the evaluator does answer a report, its findings that carry a
    hierarchy are what the alt callback added, image by image. *)
Lemma alt_findings_of_a_returned_report {lib : Library} doc htmlLines report :
  analyzeAccessibility doc htmlLines = inr report ->
  filter (fun f => defined (hierarchy f)) report
  = flat_map (fun img => altCallback htmlLines img []) (select (ByTag "img") doc).
Proof.
  intros Hreturned. apply analyzeAccessibility_returned in Hreturned.
  destruct (accessibilityBody_report doc htmlLines) as [reached [rest [_ [Hsnd _]]]].
  rewrite Hreturned in Hsnd. simpl in Hsnd. rewrite Hsnd, filter_app.
  rewrite filter_all, filter_none; [now rewrite app_nil_r | |].
  - apply Forall_flat_map. intros element _.
    generalize (contrastCallback_has_ratio htmlLines element).
    apply Forall_impl. now intros f [_ H].
  - apply Forall_flat_map. intros img _. apply altCallback_has_hierarchy.
Qed.

(** C4, at an input where the script departs from it.  The sample page
    has two images without a usable [alt] inside a block that sets both
    colours.  With the module of line 5 a bare function, the alt loop
    pushes one finding for each of the two images, with its path; then
    the contrast loop throws at the block, the evaluator answers the
    error instead of a report, and the run logs it and writes no file:
    no finding for the images is produced. *)
Theorem missing_alt_findings_are_lost :
  map hierarchy (snd (@accessibilityBody bareFunctionLibrary imagesPage []))
  = [Some "body > div#main.hero.wide > img"; Some "body > div#main.hero.wide > img"]
  /\ @analyzeAccessibility bareFunctionLibrary imagesPage []
     = inl {| message := "contrast is not a function" |}
  /\ console (snd (@analyzeSite sourceConfig bareFunctionLibrary styledSite "u" emptyWorld))
     = [(Stderr, "❌ Erro ao analisar o site: contrast is not a function")]
  /\ files (snd (@analyzeSite sourceConfig bareFunctionLibrary styledSite "u" emptyWorld))
     = [].
Proof. repeat split. Qed.

(** ** Accessibility: colour contrast *)

Module FloatFacts.

(** Swapping the operands of the comparison of two floats swaps its
    answer. *)
Lemma SFcompare_swap (x y : spec_float) :
  SFcompare y x = match SFcompare x y with
                  | Some c => Some (CompOpp c)
                  | None => None
                  end.
Proof.
  destruct x as [sx|sx| |sx mx ex], y as [sy|sy| |sy my ey]; simpl;
    try reflexivity; try (destruct sx, sy; reflexivity).
  destruct sx, sy; simpl; try reflexivity;
    rewrite (Z.compare_antisym ex ey); destruct (ex ?= ey)%Z; simpl;
    try reflexivity; rewrite Pos.compare_cont_antisym; simpl;
    try reflexivity.
  destruct (Pos.compare_cont Eq mx my); reflexivity.
Qed.

(** A number that is at least [y] is not below [y]. *)
Lemma leb_not_ltb (x y : float) : PrimFloat.leb y x = true -> PrimFloat.ltb x y = false.
Proof.
  rewrite FloatAxioms.leb_spec, FloatAxioms.ltb_spec. unfold SFleb, SFltb.
  rewrite (SFcompare_swap (Prim2SF x) (Prim2SF y)).
  destruct (SFcompare (Prim2SF x) (Prim2SF y)) as [[]|]; simpl; congruence.
Qed.

End FloatFacts.

(** The call of line 172 through an [undefined] binding: for an
    element with both colours the callback throws and pushes nothing. *)
Lemma contrastCallback_without_binding {lib : Library} htmlLines element report bg fg :
  contrast = None ->
  css (here element) "background-color" = Some bg ->
  css (here element) "color" = Some fg ->
  nonempty bg = true -> nonempty fg = true ->
  contrastCallback htmlLines element report
  = (Some {| message := "contrast is not a function" |}, report).
Proof.
  intros Hnone Hbg Hfg Hb Hf. unfold contrastCallback.
  now rewrite Hbg, Hfg, Hb, Hf, Hnone.
Qed.

(** With a module that does have a [contrast] property, an element with
    both colours gets exactly one contrast finding when the ratio is
    below 4.5 and none when it is not: none at exactly 4.5, none above. *)
Lemma contrastCallback_with_binding {lib : Library} htmlLines element bg fg ratio :
  contrast = Some ratio ->
  css (here element) "background-color" = Some bg ->
  css (here element) "color" = Some fg ->
  nonempty bg = true -> nonempty fg = true ->
  (PrimFloat.ltb (ratio bg fg) 4.5%float = true ->
   exists f, contrastCallback htmlLines element [] = (None, [f])
             /\ issue f = "Contraste de cores insuficiente"
             /\ contrastRatio f = Some (toFixed2 (ratio bg fg)))
  /\ (PrimFloat.ltb (ratio bg fg) 4.5%float = false ->
      contrastCallback htmlLines element [] = (None, []))
  /\ (PrimFloat.leb 4.5%float (ratio bg fg) = true ->
      contrastCallback htmlLines element [] = (None, []))
  /\ (ratio bg fg = 4.5%float -> contrastCallback htmlLines element [] = (None, [])).
Proof.
  intros Hsome Hbg Hfg Hb Hf.
  assert (Hno : PrimFloat.ltb (ratio bg fg) 4.5%float = false ->
                contrastCallback htmlLines element [] = (None, [])).
  { intros Hge. unfold contrastCallback. now rewrite Hbg, Hfg, Hb, Hf, Hsome, Hge. }
  split; [| split; [exact Hno | split]].
  - intros Hlt. unfold contrastCallback, push.
    rewrite Hbg, Hfg, Hb, Hf, Hsome, Hlt. simpl. eexists. repeat split.
  - intros Hle. now apply Hno, FloatFacts.leb_not_ltb.
  - intros Heq. apply Hno. rewrite Heq. reflexivity.
Qed.

(** C5, at an input where the script departs from it.  The page
    [<p style='background-color:#fff;color:#fff'>x</p>] has one element
    with both colours, of ratio 1.  With the module of line 5 a bare
    function, the callback throws at the call of line 172 before any
    ratio is computed: the array stays empty, the evaluator answers the
    error, and no contrast finding is produced. *)
Theorem contrast_check_throws :
  (exists element,
      select Universal colouredPage = [element]
      /\ @css bareFunctionLibrary (here element) "background-color" = Some "#fff"
      /\ @css bareFunctionLibrary (here element) "color" = Some "#fff"
      /\ @contrastCallback bareFunctionLibrary [] element []
         = (Some {| message := "contrast is not a function" |}, []))
  /\ @analyzeAccessibility bareFunctionLibrary colouredPage []
     = inl {| message := "contrast is not a function" |}
  /\ countIssue "Contraste de cores insuficiente"
       (snd (@accessibilityBody bareFunctionLibrary colouredPage [])) = 0%nat.
Proof.
  split; [eexists; repeat split | split; reflexivity].
Qed.

(** The same page with a module that has the property: the ratio 1 is
    below 4.5 and the element is reported. *)
Example contrast_check_with_binding :
  map contrastRatio
      (match @analyzeAccessibility sampleLibrary colouredPage [] with
       | inr report => report
       | inl _ => []
       end)
  = [Some "1.00"].
Proof. reflexivity. Qed.

(** ** Locations found by substring search *)

Section Locations.

Context {cfg : Config} {lib : Library}.

Lemma scriptCallback_located htmlLines script :
  Forall (locatedBySearch htmlLines (here script)) (scriptCallback htmlLines script []).
Proof.
  unfold scriptCallback, push.
  destruct (attr script "src") as [s|]; [|constructor].
  destruct (nonempty s && negb (defined (attr script "async"))
            && negb (defined (attr script "defer"))); simpl; [|constructor].
  repeat constructor. now apply located.
Qed.

Lemma altCallback_located htmlLines img :
  Forall (locatedBySearch htmlLines (here img)) (altCallback htmlLines img []).
Proof.
  unfold altCallback, push.
  destruct (negb (truthy (attr img "alt"))); simpl; [|constructor].
  repeat constructor. now apply located.
Qed.

Lemma contrastCallback_located htmlLines element :
  Forall (locatedBySearch htmlLines (here element))
         (snd (contrastCallback htmlLines element [])).
Proof.
  unfold contrastCallback, push.
  contrast_cases element; simpl; repeat constructor; now apply located.
Qed.

Lemma linkCallback_located htmlLines link :
  Forall (locatedBySearch htmlLines (here link)) (linkCallback htmlLines link []).
Proof.
  unfold linkCallback, push.
  destruct (attr link "href") as [h|]; [|constructor].
  destruct (nonempty h && (startsWith h "#" || String.eqb h EmptyString)); simpl;
    [|constructor].
  repeat constructor. now apply located.
Qed.

Lemma imageResume_located htmlLines img src outcome console :
  Forall (locatedBySearch htmlLines (here img))
         (fst (imageResume htmlLines img src outcome ([], console))).
Proof.
  unfold imageResume, push.
  destruct outcome as [[bytes|]|]; simpl; try constructor.
  destruct (nonempty bytes
            && PrimFloat.ltb (numberOfZ (MAX_IMAGE_SIZE_KB * 1024)) (toNumber bytes));
    simpl; [|constructor].
  repeat constructor. now apply located.
Qed.

Lemma located_in_flat_map htmlLines (callback : cursor -> list Finding) sel f :
  (forall c, Forall (locatedBySearch htmlLines (here c)) (callback c)) ->
  In f (flat_map callback sel) ->
  exists c, In c sel /\ locatedBySearch htmlLines (here c) f.
Proof.
  intros Hcb Hin. apply in_flat_map in Hin as [c [Hc Hf]].
  exists c. split; [exact Hc |].
  exact (proj1 (Forall_forall _ _) (Hcb c) f Hf).
Qed.

End Locations.

Lemma located_reports_first_line {lib : Library} htmlLines n f :
  locatedBySearch htmlLines n f -> reportsFirstLine htmlLines n f.
Proof. intros [k [Hloc Hfirst]]. exists k. split; [exact Hloc | exact Hfirst]. Qed.

Lemma added_reports_first_line {lib : Library} htmlLines n
  (report later added : list Finding) :
  later = (report ++ added)%list ->
  Forall (locatedBySearch htmlLines n) added ->
  exists added', extendedBy report later added'
                 /\ Forall (reportsFirstLine htmlLines n) added'.
Proof.
  intros Hlater Hadded. exists added. split; [exact Hlater |].
  revert Hadded. apply Forall_impl. intros f. apply located_reports_first_line.
Qed.

(** C7: whatever a callback that searches the raw lines adds to the
    report for an element (blocking script, missing alt, contrast,
    broken link, and the image-size finding of a resumed check), the
    location it writes is the word Linha and the decimal 1-based number
    of the first line that holds the serialisation of that very element,
    and 0 when no line holds it; and the findings of the three
    evaluators are exactly what these callbacks add, element by element
    in document order. *)
Theorem searched_locations {cfg : Config} {lib : Library}
  (doc : document) (htmlLines : list string) :
  (forall element report,
      (exists added,
          extendedBy report (scriptCallback htmlLines element report) added
          /\ Forall (reportsFirstLine htmlLines (here element)) added)
      /\ (exists added,
             extendedBy report (altCallback htmlLines element report) added
             /\ Forall (reportsFirstLine htmlLines (here element)) added)
      /\ (exists added,
             extendedBy report (snd (contrastCallback htmlLines element report)) added
             /\ Forall (reportsFirstLine htmlLines (here element)) added)
      /\ (exists added,
             extendedBy report (linkCallback htmlLines element report) added
             /\ Forall (reportsFirstLine htmlLines (here element)) added)
      /\ (forall src outcome console,
             exists added,
               extendedBy report
                 (fst (imageResume htmlLines element src outcome (report, console))) added
               /\ Forall (reportsFirstLine htmlLines (here element)) added))
  /\ fst (analyzePerformance doc htmlLines)
     = flat_map (fun script => scriptCallback htmlLines script [])
                (select (ByTag "script") doc)
  /\ analyzeBrokenLinks doc htmlLines
     = flat_map (fun link => linkCallback htmlLines link []) (select (ByTag "a") doc)
  /\ (exists reached rest,
         select Universal doc = (reached ++ rest)%list
         /\ snd (accessibilityBody doc htmlLines)
            = (flat_map (fun img => altCallback htmlLines img [])
                        (select (ByTag "img") doc)
               ++ flat_map (fun element => snd (contrastCallback htmlLines element []))
                           reached)%list).
Proof.
  split; [| split; [| split]].
  - intros element report. repeat split.
    + apply (added_reports_first_line htmlLines (here element) report _ _
               (scriptCallback_appends htmlLines element report)).
      apply scriptCallback_located.
    + apply (added_reports_first_line htmlLines (here element) report _ _
               (altCallback_appends htmlLines element report)).
      apply altCallback_located.
    + apply (added_reports_first_line htmlLines (here element) report _
               (snd (contrastCallback htmlLines element []))).
      * now rewrite contrastCallback_appends.
      * apply contrastCallback_located.
    + apply (added_reports_first_line htmlLines (here element) report _ _
               (linkCallback_appends htmlLines element report)).
      apply linkCallback_located.
    + intros src outcome console.
      apply (added_reports_first_line htmlLines (here element) report _ _
               (imageResume_appends htmlLines element src outcome report console)).
      apply imageResume_located.
  - apply analyzePerformance_report.
  - apply analyzeBrokenLinks_report.
  - destruct (accessibilityBody_report doc htmlLines) as [reached [rest [Hsel [Hsnd _]]]].
    exists reached, rest. auto.
Qed.

(** The search on two sample inputs: the serialised script is on the
    second line, and on no line at all. *)
Example searched_locations_sample :
  map location (fst (@analyzePerformance sourceConfig sampleLibrary scriptsPage
                       ["<head>"; "  <script>"]))
  = ["Linha 2"]
  /\ map location (fst (@analyzePerformance sourceConfig sampleLibrary scriptsPage
                          ["<head>"; "  <SCRIPT>"]))
     = ["Linha 0"].
Proof. split; reflexivity. Qed.

(** ** Failures of the fetch and of the parse *)

(** C8: when the fetch or the parse fails with [e], the orchestrator
    catches it and ends normally; the run adds exactly one line to the
    console, the error line with the message of [e], and leaves the
    files as they were: no report, whole or partial, is written. *)
Theorem failure_is_logged_and_nothing_written
  {cfg : Config} {lib : Library} {env : Environment}
  (url : string) (w : world) (e : error) :
  axios_get url = inl e
  \/ (exists data, axios_get url = inr data /\ cheerio_load data = inl e) ->
  fst (analyzeSite url w) = inr tt
  /\ console (snd (analyzeSite url w))
     = logError ("Erro ao analisar o site: " ++ message e) (console w)
  /\ files (snd (analyzeSite url w)) = files w.
Proof.
  intros Hfail. unfold analyzeSite, try_catch, bind, attempt.
  destruct Hfail as [Hget | [data [Hget Hload]]]; rewrite Hget; simpl.
  - repeat split.
  - rewrite Hload. simpl. repeat split.
Qed.

(** C8 on the two failing sample environments, with the report of an
    earlier run on disk. *)
Lemma failure_is_logged_and_nothing_written_witness :
  let before := {| console := []; files := [("site-analysis-report.txt", "old")];
                   performanceReport := []; inflight := [] |} in
  (console (snd (@analyzeSite sourceConfig sampleLibrary offline "u" before))
   = [(Stderr, "❌ Erro ao analisar o site: Network Error")]
   /\ files (snd (@analyzeSite sourceConfig sampleLibrary offline "u" before))
      = [("site-analysis-report.txt", "old")])
  /\ (console (snd (@analyzeSite sourceConfig sampleLibrary unparsable "u" before))
      = [(Stderr, "❌ Erro ao analisar o site: Unexpected end of input")]
      /\ files (snd (@analyzeSite sourceConfig sampleLibrary unparsable "u" before))
         = [("site-analysis-report.txt", "old")]).
Proof.
  intros before. split.
  - destruct (@failure_is_logged_and_nothing_written sourceConfig sampleLibrary offline
                "u" before {| message := "Network Error" |})
      as [_ [Hconsole Hfiles]]; [left; reflexivity |].
    rewrite Hconsole, Hfiles. split; reflexivity.
  - destruct (@failure_is_logged_and_nothing_written sourceConfig sampleLibrary
                unparsable "u" before {| message := "Unexpected end of input" |})
      as [_ [Hconsole Hfiles]];
      [right; exists "<html>"; split; reflexivity |].
    rewrite Hconsole, Hfiles. split; reflexivity.
Defined.

(** On the sample environment that answers, the same run writes the
    report and logs the success line. *)
Example successful_run_writes_the_report :
  let after := snd (@analyzeSite sourceConfig sampleLibrary online "u" emptyWorld) in
  map fst (files after) = ["site-analysis-report.txt"]
  /\ console after = [(Stdout, "✅ Relatório salvo em site-analysis-report.txt")].
Proof. split; reflexivity. Qed.

(** ** Findings are complete and their arrays only grow *)

Section AppendOnly.

Context {cfg : Config} {lib : Library}.

Ltac adds_nothing :=
  exists []; split; [unfold extendedBy; now rewrite app_nil_r | constructor].

Ltac adds_one :=
  eexists [_]; split; [reflexivity | repeat constructor].

Lemma appendsWellFormed_then (first second : list Finding -> list Finding) :
  appendsWellFormed first -> appendsWellFormed second ->
  appendsWellFormed (fun report => second (first report)).
Proof.
  intros Hfirst Hsecond report.
  destruct (Hfirst report) as [added1 [E1 W1]].
  destruct (Hsecond (first report)) as [added2 [E2 W2]].
  exists (added1 ++ added2)%list. split.
  - unfold extendedBy in *. rewrite E2, E1. now rewrite app_assoc.
  - apply Forall_app. now split.
Qed.

Lemma appendsWellFormed_each (callback : cursor -> list Finding -> list Finding) :
  (forall c, appendsWellFormed (callback c)) ->
  forall sel, appendsWellFormed (each sel callback).
Proof.
  intros Hcb sel. unfold each.
  induction sel as [|c sel IH]; intros report; simpl.
  - adds_nothing.
  - destruct (Hcb c report) as [added1 [E1 W1]].
    destruct (IH (callback c report)) as [added2 [E2 W2]].
    exists (added1 ++ added2)%list. split.
    + unfold extendedBy in *. rewrite E2, E1. now rewrite app_assoc.
    + apply Forall_app. now split.
Qed.

Lemma appendsWellFormed_from_empty (step : list Finding -> list Finding) :
  appendsWellFormed step -> Forall (fun f => wellFormed f = true) (step []).
Proof.
  intros H. destruct (H []) as [added [E W]].
  unfold extendedBy in E. now rewrite E.
Qed.

Lemma checkTitle_appends doc : appendsWellFormed (checkTitle doc).
Proof.
  intros report. unfold checkTitle, push.
  destruct (negb (nonempty (text (select (ByTag "title") doc)))); [adds_one |].
  destruct (60 <? String.length (text (select (ByTag "title") doc)))%nat;
    [adds_one | adds_nothing].
Qed.

Lemma checkDescription_appends doc : appendsWellFormed (checkDescription doc).
Proof.
  intros report. unfold checkDescription, push.
  destruct (attrFirst (select (ByTagAttr "meta" "name" "description") doc) "content")
    as [content|]; simpl truthy; cbv beta iota zeta.
  - destruct (negb (nonempty content)); [adds_one |].
    destruct (160 <? String.length content)%nat; [adds_one | adds_nothing].
  - adds_one.
Qed.

Lemma checkHeadings_appends doc : appendsWellFormed (checkHeadings doc).
Proof.
  intros report. unfold checkHeadings, push.
  destruct (List.length (select (ByTags ["h1"; "h2"; "h3"; "h4"; "h5"; "h6"]) doc) =? 0)%nat;
    [adds_one | adds_nothing].
Qed.

Lemma scriptCallback_appendsWellFormed htmlLines script :
  appendsWellFormed (scriptCallback htmlLines script).
Proof.
  intros report. unfold scriptCallback, push.
  destruct (attr script "src") as [s|]; [| adds_nothing].
  destruct (nonempty s && negb (defined (attr script "async"))
            && negb (defined (attr script "defer"))); [adds_one | adds_nothing].
Qed.

Lemma imageResume_appendsWellFormed htmlLines img src outcome console :
  appendsWellFormed
    (fun report => fst (imageResume htmlLines img src outcome (report, console))).
Proof.
  intros report. unfold imageResume, push.
  destruct outcome as [[bytes|]|]; simpl; try adds_nothing.
  destruct (nonempty bytes
            && PrimFloat.ltb (numberOfZ (MAX_IMAGE_SIZE_KB * 1024)) (toNumber bytes));
    simpl; [adds_one | adds_nothing].
Qed.

Lemma altCallback_appendsWellFormed htmlLines img :
  appendsWellFormed (altCallback htmlLines img).
Proof.
  intros report. unfold altCallback, push.
  destruct (negb (truthy (attr img "alt"))); [adds_one | adds_nothing].
Qed.

Lemma contrastCallback_appendsWellFormed htmlLines element :
  appendsWellFormed (fun report => snd (contrastCallback htmlLines element report)).
Proof.
  intros report. unfold contrastCallback, push.
  contrast_cases element; simpl; first [adds_one | adds_nothing].
Qed.

(** A loop that can throw only adds what its callback adds, up to the
    throw. *)
Lemma appendsWellFormed_eachThrowing (callback : cursor -> list Finding -> outcome) :
  (forall c, appendsWellFormed (fun report => snd (callback c report))) ->
  forall sel, appendsWellFormed (fun report => snd (eachThrowing sel callback report)).
Proof.
  intros Hcb sel. induction sel as [|c sel IH]; intros report; simpl.
  - adds_nothing.
  - destruct (Hcb c report) as [added1 [E1 W1]].
    destruct (callback c report) as [[e|] later] eqn:Hstep; simpl in E1 |- *.
    + exists added1. split; assumption.
    + destruct (IH later) as [added2 [E2 W2]].
      exists (added1 ++ added2)%list. split.
      * unfold extendedBy in *. rewrite E2, E1. now rewrite app_assoc.
      * apply Forall_app. now split.
Qed.

Lemma linkCallback_appendsWellFormed htmlLines link :
  appendsWellFormed (linkCallback htmlLines link).
Proof.
  intros report. unfold linkCallback, push.
  destruct (attr link "href") as [h|]; [| adds_nothing].
  destruct (nonempty h && (startsWith h "#" || String.eqb h EmptyString));
    [adds_one | adds_nothing].
Qed.

Lemma checkHttps_appends : appendsWellFormed checkHttps.
Proof.
  intros report. unfold checkHttps, push.
  destruct (negb (startsWith SITE_URL "https://")); [adds_one | adds_nothing].
Qed.

Lemma checkViewport_appends doc : appendsWellFormed (checkViewport doc).
Proof.
  intros report. unfold checkViewport, push.
  destruct (negb (truthy (attrFirst (select (ByTagAttr "meta" "name" "viewport") doc)
                            "content"))); [adds_one | adds_nothing].
Qed.

End AppendOnly.

(** C9: every step of the six evaluators that touches a report array
    (the three SEO checks, the four [each] loops, the resumed image
    check, the transport check and the viewport check) leaves what the
    array held in place and only adds findings at its end, and every
    finding it adds has a non-empty type, issue, solution and location,
    also when the contrast loop ends in a throw; hence every finding of
    every evaluator's array, answered or not, has these four fields
    non-empty. *)
Theorem findings_complete_and_append_only {cfg : Config} {lib : Library}
  (doc : document) (htmlLines : list string) :
  (appendsWellFormed (checkTitle doc)
   /\ appendsWellFormed (checkDescription doc)
   /\ appendsWellFormed (checkHeadings doc)
   /\ (forall sel, appendsWellFormed (each sel (scriptCallback htmlLines)))
   /\ (forall img src outcome console,
         appendsWellFormed
           (fun report => fst (imageResume htmlLines img src outcome (report, console))))
   /\ (forall sel, appendsWellFormed (each sel (altCallback htmlLines)))
   /\ (forall sel,
         appendsWellFormed
           (fun report => snd (eachThrowing sel (contrastCallback htmlLines) report)))
   /\ (forall sel, appendsWellFormed (each sel (linkCallback htmlLines)))
   /\ appendsWellFormed checkHttps
   /\ appendsWellFormed (checkViewport doc))
  /\ (Forall (fun f => wellFormed f = true) (analyzeSEO doc htmlLines)
      /\ Forall (fun f => wellFormed f = true) (fst (analyzePerformance doc htmlLines))
      /\ Forall (fun f => wellFormed f = true) (snd (accessibilityBody doc htmlLines))
      /\ (forall report, analyzeAccessibility doc htmlLines = inr report ->
            Forall (fun f => wellFormed f = true) report)
      /\ Forall (fun f => wellFormed f = true) (analyzeBrokenLinks doc htmlLines)
      /\ Forall (fun f => wellFormed f = true) (analyzeSecurity doc htmlLines)
      /\ Forall (fun f => wellFormed f = true) (analyzeMobile doc htmlLines)).
Proof.
  pose proof (checkTitle_appends doc) as Htitle.
  pose proof (checkDescription_appends doc) as Hdescription.
  pose proof (checkHeadings_appends doc) as Hheadings.
  pose proof (appendsWellFormed_each _ (scriptCallback_appendsWellFormed htmlLines))
    as Hscripts.
  pose proof (appendsWellFormed_each _ (altCallback_appendsWellFormed htmlLines))
    as Halt.
  pose proof (appendsWellFormed_eachThrowing _
                (contrastCallback_appendsWellFormed htmlLines)) as Hcontrast.
  assert (Hbody : Forall (fun f => wellFormed f = true)
                    (snd (accessibilityBody doc htmlLines))).
  { apply (appendsWellFormed_from_empty
             (fun r => snd (eachThrowing (select Universal doc) (contrastCallback htmlLines)
                              (each (select (ByTag "img") doc) (altCallback htmlLines) r)))).
    apply (appendsWellFormed_then
             (each (select (ByTag "img") doc) (altCallback htmlLines))
             (fun r => snd (eachThrowing (select Universal doc)
                              (contrastCallback htmlLines) r))); auto. }
  pose proof (appendsWellFormed_each _ (linkCallback_appendsWellFormed htmlLines))
    as Hlinks.
  pose proof checkHttps_appends as Hhttps.
  pose proof (checkViewport_appends doc) as Hviewport.
  split.
  - repeat (split; [assumption |]); try assumption.
    split; [intros; apply imageResume_appendsWellFormed |].
    repeat (split; [assumption |]); assumption.
  - repeat split.
    + apply (appendsWellFormed_from_empty
               (fun r => checkHeadings doc (checkDescription doc (checkTitle doc r)))).
      apply (appendsWellFormed_then
               (fun r => checkDescription doc (checkTitle doc r))); [| assumption].
      now apply appendsWellFormed_then.
    + apply (appendsWellFormed_from_empty _ (Hscripts _)).
    + exact Hbody.
    + intros report Hreturned. apply analyzeAccessibility_returned in Hreturned.
      now rewrite Hreturned in Hbody.
    + apply (appendsWellFormed_from_empty _ (Hlinks _)).
    + apply (appendsWellFormed_from_empty _ Hhttps).
    + apply (appendsWellFormed_from_empty _ Hviewport).
Qed.

(** ** The whole run on the minimal page *)

(** With an https target, the page
    [<html><head></head><body><img src='a.png'></body></html>] gets five
    findings in the order of the evaluators, none of them from the
    Performance, Broken-Links or Security evaluator; with the target of
    the script, which names no scheme, the transport finding is added. *)
Example minimal_page_findings :
  let doc := minimalPage in
  map issue (analyzeSEO doc []
             ++ fst (@analyzePerformance httpsConfig sampleLibrary doc [])
             ++ snd (@accessibilityBody sampleLibrary doc [])
             ++ @analyzeBrokenLinks sampleLibrary doc []
             ++ @analyzeSecurity httpsConfig doc []
             ++ analyzeMobile doc [])%list
  = ["Título ausente"; "Meta description ausente"; "Nenhum heading encontrado";
     "Imagem sem atributo ALT"; "Viewport não configurado"]
  /\ map issue (@analyzeSecurity sourceConfig doc []) = ["Site não utiliza HTTPS"].
Proof. split; reflexivity. Qed.

(** ** SEO: the description and heading checks, and the shape of the report *)

Lemma checkTitle_onto doc report :
  checkTitle doc report = (report ++ checkTitle doc [])%list.
Proof.
  unfold checkTitle, push.
  destruct (negb (nonempty (text (select (ByTag "title") doc)))); [reflexivity |].
  destruct (60 <? String.length (text (select (ByTag "title") doc)))%nat;
    [reflexivity | now rewrite app_nil_r].
Qed.

Lemma checkDescription_onto doc report :
  checkDescription doc report = (report ++ checkDescription doc [])%list.
Proof.
  unfold checkDescription, push.
  destruct (attrFirst (select (ByTagAttr "meta" "name" "description") doc) "content")
    as [content|]; simpl truthy; cbv beta iota zeta; [| reflexivity].
  destruct (negb (nonempty content)); [reflexivity |].
  destruct (160 <? String.length content)%nat; [reflexivity | now rewrite app_nil_r].
Qed.

Lemma checkHeadings_onto doc report :
  checkHeadings doc report = (report ++ checkHeadings doc [])%list.
Proof.
  unfold checkHeadings, push.
  destruct (List.length (select (ByTags ["h1"; "h2"; "h3"; "h4"; "h5"; "h6"]) doc) =? 0)%nat;
    [reflexivity | now rewrite app_nil_r].
Qed.

(** The SEO report is what the three checks add, one after the other. *)
Lemma analyzeSEO_parts doc htmlLines :
  analyzeSEO doc htmlLines
  = (checkTitle doc [] ++ checkDescription doc [] ++ checkHeadings doc [])%list.
Proof.
  unfold analyzeSEO.
  rewrite checkHeadings_onto, checkDescription_onto. now rewrite <- app_assoc.
Qed.

Ltac decide_checks :=
  repeat match goal with
         | |- context [if ?b then _ else _] => destruct b
         end.

Lemma checkTitle_adds_no_other doc text :
  text = "Meta description ausente" \/ text = "Meta description muito longa"
  \/ text = "Nenhum heading encontrado" ->
  countIssue text (checkTitle doc []) = 0%nat.
Proof.
  intros H. unfold checkTitle, push. decide_checks;
    destruct H as [-> | [-> | ->]]; reflexivity.
Qed.

Lemma checkDescription_adds_no_other doc text :
  text = "Título ausente" \/ text = "Título muito longo"
  \/ text = "Nenhum heading encontrado" ->
  countIssue text (checkDescription doc []) = 0%nat.
Proof.
  intros H. unfold checkDescription, push.
  destruct (attrFirst (select (ByTagAttr "meta" "name" "description") doc) "content")
    as [content|]; simpl truthy; cbv beta iota zeta; decide_checks;
    destruct H as [-> | [-> | ->]]; reflexivity.
Qed.

Lemma checkHeadings_adds_no_other doc text :
  text = "Título ausente" \/ text = "Título muito longo"
  \/ text = "Meta description ausente" \/ text = "Meta description muito longa" ->
  countIssue text (checkHeadings doc []) = 0%nat.
Proof.
  intros H. unfold checkHeadings, push. decide_checks;
    destruct H as [-> | [-> | [-> | ->]]]; reflexivity.
Qed.

(** The description findings of the SEO report are those of the
    description check. *)
Lemma description_count doc htmlLines text :
  text = "Meta description ausente" \/ text = "Meta description muito longa" ->
  countIssue text (analyzeSEO doc htmlLines)
  = countIssue text (checkDescription doc []).
Proof.
  intros H. rewrite analyzeSEO_parts, !countIssue_app.
  rewrite checkTitle_adds_no_other, checkHeadings_adds_no_other; [lia | |];
    destruct H as [-> | ->]; auto.
Qed.

(** The meta description check (lines 64-79): when the first description
    meta is absent, or its content is absent or empty, the SEO report has
    exactly one missing-description finding and no over-long one; when
    the content has more than 160 characters it has exactly one over-long
    finding and no missing one; when the content is non-empty and has at
    most 160 characters it has neither. *)
Theorem seo_description_findings (doc : document) (htmlLines : list string) :
  forall description,
    attrFirst (select (ByTagAttr "meta" "name" "description") doc) "content"
    = description ->
    (truthy description = false ->
     countIssue "Meta description ausente" (analyzeSEO doc htmlLines) = 1%nat
     /\ countIssue "Meta description muito longa" (analyzeSEO doc htmlLines) = 0%nat)
    /\ (forall content, description = Some content ->
          (160 < String.length content)%nat ->
          countIssue "Meta description ausente" (analyzeSEO doc htmlLines) = 0%nat
          /\ countIssue "Meta description muito longa" (analyzeSEO doc htmlLines) = 1%nat)
    /\ (forall content, description = Some content ->
          nonempty content = true -> (String.length content <= 160)%nat ->
          countIssue "Meta description ausente" (analyzeSEO doc htmlLines) = 0%nat
          /\ countIssue "Meta description muito longa" (analyzeSEO doc htmlLines) = 0%nat).
Proof.
  intros description Hdescription.
  rewrite !description_count by auto.
  unfold checkDescription, push. rewrite Hdescription.
  split; [| split].
  - intros ->. split; reflexivity.
  - intros content -> Hlong.
    assert (Hne : nonempty content = true) by (destruct content; [simpl in Hlong; lia | reflexivity]).
    simpl truthy. rewrite Hne. simpl negb. cbv iota.
    apply Nat.ltb_lt in Hlong. rewrite Hlong. split; reflexivity.
  - intros content -> Hne Hshort. simpl truthy. rewrite Hne. simpl negb. cbv iota.
    assert (H : (160 <? String.length content)%nat = false) by (apply Nat.ltb_ge; lia).
    rewrite H. split; reflexivity.
Qed.

(** The description check on pages with 161 and with 160 characters, and
    on the minimal page, which has no description. *)
Lemma seo_description_findings_witness :
  countIssue "Meta description muito longa" (analyzeSEO (describedPage 161) []) = 1%nat
  /\ countIssue "Meta description muito longa" (analyzeSEO (describedPage 160) []) = 0%nat
  /\ countIssue "Meta description ausente" (analyzeSEO minimalPage []) = 1%nat.
Proof.
  split; [| split].
  - destruct (seo_description_findings (describedPage 161) [] _ eq_refl)
      as [_ [Hlong _]].
    apply (Hlong _ eq_refl). apply Nat.ltb_lt. reflexivity.
  - destruct (seo_description_findings (describedPage 160) [] _ eq_refl)
      as [_ [_ Hshort]].
    apply (Hshort _ eq_refl); [reflexivity | apply Nat.leb_le; reflexivity].
  - destruct (seo_description_findings minimalPage [] _ eq_refl) as [Hnone _].
    apply (Hnone eq_refl).
Defined.

Lemma heading_count doc htmlLines :
  countIssue "Nenhum heading encontrado" (analyzeSEO doc htmlLines)
  = countIssue "Nenhum heading encontrado" (checkHeadings doc []).
Proof.
  rewrite analyzeSEO_parts, !countIssue_app.
  rewrite checkTitle_adds_no_other, checkDescription_adds_no_other; auto.
Qed.

(** The heading check (lines 82-90): a page without any of [h1] to [h6]
    gets exactly one missing-headings finding in the SEO report, located
    in the body; a page with at least one heading, of any of the six
    levels and anywhere in the tree, gets none. *)
Theorem seo_heading_findings (doc : document) (htmlLines : list string) :
  (select (ByTags ["h1"; "h2"; "h3"; "h4"; "h5"; "h6"]) doc = [] ->
   countIssue "Nenhum heading encontrado" (analyzeSEO doc htmlLines) = 1%nat
   /\ exists f, checkHeadings doc [] = [f] /\ location f = "Corpo do documento")
  /\ (forall heading level,
        In heading (elements doc) ->
        In level ["h1"; "h2"; "h3"; "h4"; "h5"; "h6"] ->
        tagName (here heading) = Some level ->
        countIssue "Nenhum heading encontrado" (analyzeSEO doc htmlLines) = 0%nat).
Proof.
  rewrite heading_count. unfold checkHeadings, push. split.
  - intros ->. split; [reflexivity | eexists; split; reflexivity].
  - intros heading level Hin Hlevel Htag.
    assert (Hsel : In heading (select (ByTags ["h1"; "h2"; "h3"; "h4"; "h5"; "h6"]) doc)).
    { unfold select. apply filter_In. split; [exact Hin |].
      unfold matches. apply existsb_exists. exists level. split; [exact Hlevel |].
      unfold hasName. rewrite Htag. apply String.eqb_refl. }
    destruct (select (ByTags ["h1"; "h2"; "h3"; "h4"; "h5"; "h6"]) doc);
      [destruct Hsel | reflexivity].
Qed.

(** The heading check on the minimal page, which has no heading, and on
    a page whose only heading is an [h2]. *)
Lemma seo_heading_findings_witness :
  countIssue "Nenhum heading encontrado" (analyzeSEO minimalPage []) = 1%nat
  /\ countIssue "Nenhum heading encontrado" (analyzeSEO (describedPage 10) []) = 0%nat.
Proof.
  split.
  - apply (proj1 (seo_heading_findings minimalPage [])). reflexivity.
  - apply (proj2 (seo_heading_findings (describedPage 10) [])
             (nth 6 (elements (describedPage 10)) nowhere) "h2").
    + do 6 right. left. reflexivity.
    + right. left. reflexivity.
    + reflexivity.
Defined.

(** The SEO report never has more than three findings, one per check at
    most: a missing title and an over-long title never come together, nor
    do a missing and an over-long description. *)
Theorem seo_report_shape (doc : document) (htmlLines : list string) :
  (List.length (analyzeSEO doc htmlLines) <= 3)%nat
  /\ (countIssue "Título ausente" (analyzeSEO doc htmlLines)
      + countIssue "Título muito longo" (analyzeSEO doc htmlLines) <= 1)%nat
  /\ (countIssue "Meta description ausente" (analyzeSEO doc htmlLines)
      + countIssue "Meta description muito longa" (analyzeSEO doc htmlLines) <= 1)%nat
  /\ (countIssue "Nenhum heading encontrado" (analyzeSEO doc htmlLines) <= 1)%nat.
Proof.
  rewrite (description_count doc htmlLines "Meta description ausente") by auto.
  rewrite (description_count doc htmlLines "Meta description muito longa") by auto.
  rewrite heading_count.
  rewrite analyzeSEO_parts, !countIssue_app, !length_app.
  rewrite (checkDescription_adds_no_other doc "Título ausente") by auto.
  rewrite (checkDescription_adds_no_other doc "Título muito longo") by auto.
  rewrite (checkHeadings_adds_no_other doc "Título ausente") by auto.
  rewrite (checkHeadings_adds_no_other doc "Título muito longo") by auto.
  unfold checkTitle, checkDescription, checkHeadings, push.
  destruct (attrFirst (select (ByTagAttr "meta" "name" "description") doc) "content")
    as [content|]; simpl truthy; cbv beta iota zeta; decide_checks;
    cbn; repeat split; lia.
Qed.

(** ** Mobile: the viewport check *)

(** The viewport check (lines 237-245) looks at the first viewport meta
    only: a page without one, or whose first one has no content or an
    empty one, gets exactly one finding, whatever a later viewport meta
    says; a page whose first one has a non-empty content gets none. *)
Theorem mobile_viewport_findings (doc : document) (htmlLines : list string) :
  (select (ByTagAttr "meta" "name" "viewport") doc = [] ->
   exists f, analyzeMobile doc htmlLines = [f]
             /\ issue f = "Viewport não configurado")
  /\ (forall first others,
        select (ByTagAttr "meta" "name" "viewport") doc = first :: others ->
        (truthy (attr first "content") = false ->
         exists f, analyzeMobile doc htmlLines = [f]
                   /\ issue f = "Viewport não configurado")
        /\ (truthy (attr first "content") = true -> analyzeMobile doc htmlLines = [])).
Proof.
  unfold analyzeMobile, checkViewport, push. split.
  - intros ->. eexists. split; reflexivity.
  - intros first others ->. simpl attrFirst. split; intros ->; simpl.
    + eexists. split; reflexivity.
    + reflexivity.
Qed.

(** The viewport check on the minimal page, on a page whose first
    viewport meta is empty and whose second is not, and on a page with a
    proper viewport. *)
Lemma mobile_viewport_findings_witness :
  map issue (analyzeMobile minimalPage []) = ["Viewport não configurado"]
  /\ map issue (analyzeMobile twoViewportsPage []) = ["Viewport não configurado"]
  /\ analyzeMobile (describedPage 10) [] = [].
Proof.
  split; [| split].
  - destruct (proj1 (mobile_viewport_findings minimalPage []) eq_refl) as [f [-> Hf]].
    simpl. now rewrite Hf.
  - destruct (proj2 (mobile_viewport_findings twoViewportsPage []) _ _ eq_refl)
      as [Hmissing _].
    destruct (Hmissing eq_refl) as [f [-> Hf]]. simpl. now rewrite Hf.
  - destruct (proj2 (mobile_viewport_findings (describedPage 10) []) _ _ eq_refl)
      as [_ Hset].
    exact (Hset eq_refl).
Defined.

(** ** Broken links: what is reported *)

Lemma linkCallback_resource {lib : Library} htmlLines (link : cursor) :
  map resource (linkCallback htmlLines link [])
  = match attr link "href" with
    | Some h => if startsWith h "#" then [Some h] else []
    | None => []
    end.
Proof.
  unfold linkCallback, push.
  destruct (attr link "href") as [[|c h]|]; [reflexivity | | reflexivity].
  generalize (startsWith (String c h) "#"). intros [|]; reflexivity.
Qed.

(** The Broken-Links evaluator (lines 196-209) reports, in document
    order, exactly the [<a>] elements whose [href] starts with [#], each
    with its [href] as the resource; a link without [href] is never
    reported. *)
Theorem broken_link_resources {lib : Library} (doc : document) (htmlLines : list string) :
  map resource (analyzeBrokenLinks doc htmlLines)
  = map (fun link => attr link "href")
        (filter (fun link => match attr link "href" with
                             | Some h => startsWith h "#"
                             | None => false
                             end)
                (select (ByTag "a") doc)).
Proof.
  rewrite analyzeBrokenLinks_report.
  induction (select (ByTag "a") doc) as [|link links IH]; [reflexivity |].
  simpl flat_map. rewrite map_app, IH, linkCallback_resource. simpl filter.
  destruct (attr link "href") as [h|] eqn:Hhref; [| reflexivity].
  destruct (startsWith h "#"); simpl; [now rewrite Hhref | reflexivity].
Qed.

(** ** Accessibility: elements without both colours *)

(** The contrast callback (lines 169-171) leaves the report untouched
    for an element whose background colour or text colour is unset or
    empty, and throws nothing: the binding of line 5 is not even called. *)
Theorem unresolved_colours_are_skipped {lib : Library}
  (htmlLines : list string) (element : cursor) (report : list Finding) :
  truthy (css (here element) "background-color") = false
  \/ truthy (css (here element) "color") = false ->
  contrastCallback htmlLines element report = (None, report).
Proof.
  unfold contrastCallback.
  destruct (css (here element) "background-color") as [bg|];
    destruct (css (here element) "color") as [fg|]; simpl; try reflexivity.
  intros [-> | ->]; [reflexivity | now rewrite andb_false_r].
Qed.

(** An image of the sample page sets no colour at all. *)
Lemma unresolved_colours_are_skipped_witness :
  @contrastCallback sampleLibrary [] emptyAltImage [] = (None, []).
Proof.
  apply (@unresolved_colours_are_skipped sampleLibrary [] emptyAltImage []).
  left. reflexivity.
Defined.

(** ** Performance: the image checks *)

Lemma imageCallback_request {lib : Library} {cfg : Config} htmlLines img :
  map request (match imageCallback htmlLines img with
               | Some pending => [pending]
               | None => []
               end)
  = match attr img "src" with
    | Some s => if nonempty s && negb (startsWith s "data:") then [s] else []
    | None => []
    end.
Proof.
  unfold imageCallback.
  destruct (attr img "src") as [s|]; [| reflexivity].
  now destruct (nonempty s && negb (startsWith s "data:")).
Qed.

(** The image loop (lines 118-122) sends one HEAD request per [<img>]
    whose [src] is non-empty and does not start with [data:], to that
    [src]; an image without [src], with an empty one or with an inline
    [data:] one is never requested, so there are never more requests than
    images. *)
Theorem started_image_checks {cfg : Config} {lib : Library}
  (doc : document) (htmlLines : list string) :
  (forall url,
     In url (map request (snd (analyzePerformance doc htmlLines)))
     <-> exists img, In img (select (ByTag "img") doc)
                     /\ attr img "src" = Some url
                     /\ nonempty url = true
                     /\ startsWith url "data:" = false)
  /\ (List.length (snd (analyzePerformance doc htmlLines))
      <= List.length (select (ByTag "img") doc))%nat.
Proof.
  unfold analyzePerformance, eachAsync. simpl snd.
  induction (select (ByTag "img") doc) as [|img imgs [IHin IHlen]].
  - split; [| simpl; lia]. intros url. simpl. split; [tauto | intros [img [[] _]]].
  - split.
    + intros url. simpl flat_map. rewrite map_app, in_app_iff, imageCallback_request, IHin.
      split.
      * intros [Hhere | [img' [Hin Hrest]]].
        -- exists img. split; [now left |].
           destruct (attr img "src") as [s|]; [| destruct Hhere].
           destruct (nonempty s && negb (startsWith s "data:")) eqn:Hok;
             [| destruct Hhere].
           destruct Hhere as [<- | []].
           apply andb_prop in Hok as [Hne Hdata].
           apply negb_true_iff in Hdata. auto.
        -- exists img'. split; [now right | exact Hrest].
      * intros [img' [[<- | Hin] [Hsrc [Hne Hdata]]]].
        -- left. rewrite Hsrc, Hne, Hdata. now left.
        -- right. exists img'. auto.
    + simpl flat_map. rewrite length_app. simpl List.length.
      destruct (imageCallback htmlLines img); simpl; lia.
Qed.

(** On the sample gallery only the plain image is requested. *)
Example started_image_checks_sample :
  map request (snd (@analyzePerformance sourceConfig sampleLibrary galleryPage []))
  = ["big.png"].
Proof. reflexivity. Qed.

(** The rest of the image callback (lines 123-138).  A rejected request
    logs one error line naming the [src] and leaves the report as it is;
    a response without a content length, or with an empty one, changes
    nothing; a response whose length exceeds the limit of
    [MAX_IMAGE_SIZE_KB] times 1024 bytes pushes exactly one image-size
    finding, with the [src] as resource and the formatted size, and logs
    nothing; a response whose length is at most the limit changes
    nothing. *)
Theorem resumed_image_check {cfg : Config} {lib : Library}
  (htmlLines : list string) (img : cursor) (src : string)
  (report : list Finding) (console : console_log) :
  imageResume htmlLines img src Rejected (report, console)
  = (report, logError ("Erro ao verificar imagem: " ++ src) console)
  /\ (forall contentLength, truthy contentLength = false ->
        imageResume htmlLines img src (Responded contentLength) (report, console)
        = (report, console))
  /\ (forall bytes,
        nonempty bytes = true ->
        PrimFloat.ltb (numberOfZ (MAX_IMAGE_SIZE_KB * 1024)) (toNumber bytes) = true ->
        exists f,
          imageResume htmlLines img src (Responded (Some bytes)) (report, console)
          = (push report f, console)
          /\ issue f = "Imagem muito grande"
          /\ resource f = Some src
          /\ size f = Some (formatSize (toNumber bytes)))
  /\ (forall bytes,
        PrimFloat.leb (toNumber bytes) (numberOfZ (MAX_IMAGE_SIZE_KB * 1024)) = true ->
        imageResume htmlLines img src (Responded (Some bytes)) (report, console)
        = (report, console)).
Proof.
  unfold imageResume. split; [reflexivity | split; [| split]].
  - intros [bytes|] H; [| reflexivity]. simpl in H. now rewrite H.
  - intros bytes Hne Hbig. rewrite Hne, Hbig. simpl. eexists. repeat split.
  - intros bytes Hsmall. apply FloatFacts.leb_not_ltb in Hsmall.
    rewrite Hsmall. now rewrite andb_false_r.
Qed.

(** The limit of the script is 102400 bytes: a length of 204800 is
    reported, a length of exactly 102400 is not. *)
Lemma resumed_image_check_witness :
  (exists f,
      @imageResume sourceConfig sampleLibrary [] bigImage "big.png"
        (Responded (Some "204800")) ([], [])
      = ([f], [])
      /\ size f = Some "21.00 KB")
  /\ @imageResume sourceConfig {| html := @html sampleLibrary;
                                   css := @css sampleLibrary;
                                   contrast := @contrast sampleLibrary;
                                   toFixed2 := @toFixed2 sampleLibrary;
                                   toNumber := fun _ => 102400%float |}
       [] bigImage "big.png" (Responded (Some "102400")) ([], [])
     = ([], []).
Proof.
  split.
  - destruct (@resumed_image_check sourceConfig sampleLibrary [] bigImage "big.png" [] [])
      as [_ [_ [Hbig _]]].
    destruct (Hbig "204800" eq_refl eq_refl) as [f [Hf [_ [_ Hsize]]]].
    exists f. split; [exact Hf | rewrite Hsize; reflexivity].
  - match goal with
    | |- @imageResume _ ?lib _ _ _ _ _ = _ =>
        destruct (@resumed_image_check sourceConfig lib [] bigImage "big.png" [] [])
          as [_ [_ [_ Hsmall]]]
    end.
    apply (Hsmall "102400"). reflexivity.
Defined.

(** ** Strings: concatenation, splitting and joining *)

Module StringFacts.

Lemma append_empty_r (s : string) : s ++ EmptyString = s.
Proof. induction s as [|c s IH]; simpl; [reflexivity | now rewrite IH]. Qed.

Lemma append_assoc (s t u : string) : (s ++ t) ++ u = s ++ t ++ u.
Proof. induction s as [|c s IH]; simpl; [reflexivity | now rewrite IH]. Qed.

Lemma units_append (s t : string) : units (s ++ t) = (units s ++ units t)%list.
Proof. induction s as [|c s IH]; simpl; [reflexivity | now rewrite IH]. Qed.

Lemma split_not_nil (sep : ascii) (s : string) : split sep s <> [].
Proof.
  destruct s as [|c s]; simpl; [discriminate |].
  destruct (Ascii.eqb c sep); [discriminate |].
  destruct (split sep s); discriminate.
Qed.

(** Joining the parts of a split with a one-unit string puts that unit
    in the place of every separator. *)
Lemma join_split (sep new : ascii) (s : string) :
  join (String new EmptyString) (split sep s) = replaceChar sep new s.
Proof.
  induction s as [|c s IH]; [reflexivity |].
  simpl split. simpl replaceChar. unfold join in *.
  pose proof (split_not_nil sep s) as Hne.
  destruct (Ascii.eqb c sep).
  - destruct (split sep s) as [|w ws]; [now elim Hne |].
    simpl String.concat in *. simpl. now rewrite IH.
  - destruct (split sep s) as [|w ws]; [now elim Hne |].
    rewrite <- IH. simpl. now destruct ws.
Qed.

Lemma replaceChar_same (c : ascii) (s : string) : replaceChar c c s = s.
Proof.
  induction s as [|d s IH]; simpl; [reflexivity |]. rewrite IH.
  destruct (Ascii.eqb d c) eqn:E; [| reflexivity].
  apply Ascii.eqb_eq in E. now subst.
Qed.

Lemma replaceChar_length (old new : ascii) (s : string) :
  String.length (replaceChar old new s) = String.length s.
Proof. induction s as [|c s IH]; simpl; [reflexivity | now rewrite IH]. Qed.

Lemma replaceChar_removes (old new : ascii) (s : string) :
  old <> new -> ~ In old (units (replaceChar old new s)).
Proof.
  intros Hne. induction s as [|c s IH]; simpl; [tauto |].
  intros [H | H]; [| now apply IH].
  destruct (Ascii.eqb c old) eqn:E; [congruence |].
  apply Ascii.eqb_neq in E. congruence.
Qed.

(** No part of a split holds the separator. *)
Lemma split_parts_free (sep : ascii) (s : string) :
  Forall (fun part => ~ In sep (units part)) (split sep s).
Proof.
  induction s as [|c s IH]; simpl.
  - repeat constructor. simpl. tauto.
  - destruct (Ascii.eqb c sep) eqn:E.
    + constructor; [simpl; tauto | exact IH].
    + destruct (split sep s) as [|w ws]; [repeat constructor; simpl |].
      * intros [H | []]. apply Ascii.eqb_neq in E. congruence.
      * inversion IH as [|? ? Hw Hws]; subst. constructor; [| exact Hws].
        simpl. intros [H | H]; [| now apply Hw].
        apply Ascii.eqb_neq in E. congruence.
Qed.

(** A split has one part more than the string has separators. *)
Lemma split_length (sep : ascii) (s : string) :
  List.length (split sep s)
  = S (List.length (filter (fun c => Ascii.eqb c sep) (units s))).
Proof.
  induction s as [|c s IH]; simpl; [reflexivity |].
  destruct (Ascii.eqb c sep); simpl; [now rewrite IH |].
  pose proof (split_not_nil sep s) as Hne.
  destruct (split sep s) as [|w ws]; [now elim Hne | exact IH].
Qed.

End StringFacts.

(** ** The hierarchy path *)

(** The entry of an element (lines 31-34) is its tag name in lower case,
    then [#] and the [id] when it is set and non-empty, then a dot and the
    [class] attribute with every space turned into a dot when it is set
    and non-empty: as many dots as spaces, so two spaces in a row leave
    two dots in a row. *)
Theorem hierarchy_entry_shape (name : string) (n : node) :
  hierarchyEntry name n
  = toLowerCase name
    ++ match attrib n "id" with
       | Some i => if nonempty i then "#" ++ i else EmptyString
       | None => EmptyString
       end
    ++ match attrib n "class" with
       | Some c => if nonempty c then "." ++ replaceChar " " "." c else EmptyString
       | None => EmptyString
       end.
Proof.
  unfold hierarchyEntry.
  destruct (attrib n "class") as [c|]; [| reflexivity].
  destruct (nonempty c); [| reflexivity].
  now rewrite (StringFacts.join_split " " "." c).
Qed.

(** A class list with a doubled space, on an element named in capitals. *)
Example hierarchy_entry_sample :
  hierarchyEntry "DIV" (Element "DIV" [("id", "top"); ("class", "a  b")] [])
  = "div#top.a..b".
Proof. reflexivity. Qed.

(** Every node on the parent chain of a selected element is itself an
    element of the document. *)
Lemma descend_chain (n : node) :
  forall up c, In c (descend up n) ->
    forall a, In a (here c :: above c) ->
      In a up \/ exists c', In c' (descend up n) /\ here c' = a.
Proof.
  induction n as [name attribs children IH | data | data] using node_induction;
    intros up c Hc a Ha; simpl in Hc; try contradiction.
  destruct Hc as [<- | Hc].
  - simpl in Ha. destruct Ha as [<- | Ha]; [| now left].
    right. eexists. split; [left; reflexivity | reflexivity].
  - apply in_flat_map in Hc as [child [Hchild Hc]].
    pose proof (proj1 (Forall_forall _ _) IH child Hchild _ c Hc a Ha) as [Hup | Hdown].
    + destruct Hup as [<- | Hup]; [| now left].
      right. eexists. split; [left; reflexivity | reflexivity].
    + destruct Hdown as [c' [Hc' Hhere]]. right. exists c'. split; [| exact Hhere].
      simpl. right. apply in_flat_map. eauto.
Qed.

Lemma chain_in_document (doc : document) (c : cursor) :
  In c (elements doc) ->
  forall a, In a (here c :: above c) -> exists c', In c' (elements doc) /\ here c' = a.
Proof.
  unfold elements. intros Hc a Ha.
  apply in_flat_map in Hc as [root [Hroot Hc]].
  destruct (descend_chain root [] c Hc a Ha) as [[] | [c' [Hc' Hhere]]].
  exists c'. split; [| exact Hhere]. apply in_flat_map. eauto.
Qed.

(** [getElementHierarchy] (lines 26-39) on an element of a document
    whose elements all have a non-empty tag name, as a parser leaves
    them: the path lists one entry per node of the parent chain, from the
    outermost ancestor down to the element itself, joined by [ > ]. *)
Theorem hierarchy_is_the_ancestor_path (doc : document) (element : cursor) :
  (forall c, In c (elements doc) -> named (here c)) ->
  In element (elements doc) ->
  getElementHierarchy element
  = join " > " (rev (map entryOf (here element :: above element))).
Proof.
  intros Hnamed Hin. unfold getElementHierarchy.
  rewrite climb_all_named; [reflexivity |].
  apply Forall_forall. intros a Ha.
  destruct (chain_in_document doc element Hin a Ha) as [c' [Hc' <-]].
  exact (Hnamed c' Hc').
Qed.

(** The path of the second image of the sample page. *)
Lemma hierarchy_is_the_ancestor_path_witness :
  getElementHierarchy emptyAltImage
  = join " > " ["body"; "div#main.hero.wide"; "img"].
Proof.
  rewrite (hierarchy_is_the_ancestor_path imagesPage emptyAltImage).
  - reflexivity.
  - intros c Hc. simpl in Hc.
    repeat (destruct Hc as [<- | Hc]; [eexists; split; reflexivity |]).
    destruct Hc.
  - do 3 right. left. reflexivity.
Defined.

(** ** The lines of the page and the locations *)

(** [data.split('\n')] (line 276): joining the lines with a line feed
    gives the page back, no line holds a line feed, and there is one line
    more than the page has line feeds, so even the empty page has one
    line. *)
Theorem lines_of_the_page (data : string) :
  join (String LF EmptyString) (split LF data) = data
  /\ Forall (fun line => ~ In LF (units line)) (split LF data)
  /\ List.length (split LF data)
     = S (List.length (filter (fun c => Ascii.eqb c LF) (units data))).
Proof.
  split; [| split].
  - rewrite StringFacts.join_split. apply StringFacts.replaceChar_same.
  - apply StringFacts.split_parts_free.
  - apply StringFacts.split_length.
Qed.

Lemma includes_units (line tag : string) (c : ascii) :
  includes line tag = true -> In c (units tag) -> In c (units line).
Proof.
  intros Hinc Hc. apply JSFacts.includes_iff in Hinc as [before [after ->]].
  rewrite !StringFacts.units_append, !in_app_iff. auto.
Qed.

Lemma findIndex_none {A : Type} (p : A -> bool) (xs : list A) :
  (forall x, In x xs -> p x = false) -> findIndex p xs = (-1)%Z.
Proof.
  intros Hall. unfold findIndex.
  destruct (JSFacts.findIndexFrom_spec p xs 0)
    as [[Hnone _] | [k [x [_ [Hnth [Hx _]]]]]]; [exact Hnone |].
  apply nth_error_In in Hnth. rewrite (Hall x Hnth) in Hx. discriminate.
Qed.

(** The search (lines 106, 126, 154, 175, 200) over the lines of a page
    never finds a tag that holds a line feed. *)
Lemma multi_line_tag_not_found (data tag : string) :
  In LF (units tag) ->
  findIndex (fun line => includes line tag) (split LF data) = (-1)%Z.
Proof.
  intros Hlf. apply findIndex_none. intros line Hline.
  destruct (includes line tag) eqn:Hinc; [| reflexivity].
  pose proof (proj1 (Forall_forall _ _) (StringFacts.split_parts_free LF data)
                line Hline) as Hfree.
  elim Hfree. exact (includes_units line tag LF Hinc Hlf).
Qed.

(** An element that serialises over more than one line is never
    located: over the lines of any page, each of the four callbacks and
    the resumed image check report it at line 0. *)
Theorem multi_line_elements_are_reported_at_line_0 {cfg : Config} {lib : Library}
  (data : string) (element : cursor) :
  In LF (units (html (here element))) ->
  let htmlLines := split LF data in
  Forall (fun f => location f = "Linha 0") (scriptCallback htmlLines element [])
  /\ Forall (fun f => location f = "Linha 0") (altCallback htmlLines element [])
  /\ Forall (fun f => location f = "Linha 0")
            (snd (contrastCallback htmlLines element []))
  /\ Forall (fun f => location f = "Linha 0") (linkCallback htmlLines element [])
  /\ forall src outcome console,
       Forall (fun f => location f = "Linha 0")
              (fst (imageResume htmlLines element src outcome ([], console))).
Proof.
  intros Hlf htmlLines. subst htmlLines.
  pose proof (multi_line_tag_not_found data _ Hlf) as Hnone.
  unfold scriptCallback, altCallback, contrastCallback, linkCallback, imageResume, push.
  rewrite Hnone. repeat split.
  - destruct (attr element "src") as [s|]; [| constructor].
    destruct (nonempty s && negb (defined (attr element "async"))
              && negb (defined (attr element "defer"))); repeat constructor.
  - destruct (negb (truthy (attr element "alt"))); repeat constructor.
  - contrast_cases element; simpl; repeat constructor.
  - destruct (attr element "href") as [h|]; [| constructor].
    destruct (nonempty h && (startsWith h "#" || String.eqb h EmptyString));
      repeat constructor.
  - intros src [[bytes|]|] console; simpl; try constructor.
    destruct (nonempty bytes
              && PrimFloat.ltb (numberOfZ (MAX_IMAGE_SIZE_KB * 1024)) (toNumber bytes));
      simpl; repeat constructor.
Qed.

(** With a serialisation over two lines, a fragment link is reported at
    line 0 although the page holds it. *)
Lemma multi_line_elements_are_reported_at_line_0_witness :
  let link := nth 1 (select (ByTag "a") linksPage) nowhere in
  map location
      (@linkCallback twoLineLibrary (split LF ("<a" ++ String LF ">")) link [])
  = ["Linha 0"].
Proof.
  intros link.
  destruct (@multi_line_elements_are_reported_at_line_0 sourceConfig twoLineLibrary
              ("<a" ++ String LF ">") link) as [_ [_ [_ [Hlink _]]]].
  - do 2 right. left. reflexivity.
  - assert (Hshape : exists f,
               @linkCallback twoLineLibrary (split LF ("<a" ++ String LF ">")) link []
               = [f]) by (eexists; reflexivity).
    destruct Hshape as [f Hf]. rewrite Hf in Hlink |- *.
    inversion Hlink as [|? ? Hloc _]. simpl. now rewrite Hloc.
Defined.

Lemma firstLineHolding_bounds htmlLines tag n :
  firstLineHolding htmlLines tag n -> (0 <= n <= Z.of_nat (List.length htmlLines))%Z.
Proof.
  intros [[k [line [-> [Hnth _]]]] | [-> _]]; [| lia].
  assert (k < List.length htmlLines)%nat by (apply nth_error_Some; congruence).
  lia.
Qed.

Lemma located_is_within {lib : Library} htmlLines n f :
  locatedBySearch htmlLines n f -> locatedWithin htmlLines f.
Proof.
  intros [k [Hloc Hfirst]]. exists k. split; [exact Hloc |].
  now apply (firstLineHolding_bounds htmlLines (html n)).
Qed.

(** Every finding of the Performance, Accessibility and Broken-Links
    evaluators, the Accessibility array taken as it stands when the
    evaluator ends, reports a line number between 0 and the number of
    lines it was given; with no line at all, every such finding is at
    line 0. *)
Theorem searched_locations_are_within_the_page {cfg : Config} {lib : Library}
  (doc : document) (htmlLines : list string) :
  Forall (locatedWithin htmlLines)
         (fst (analyzePerformance doc htmlLines)
          ++ snd (accessibilityBody doc htmlLines)
          ++ analyzeBrokenLinks doc htmlLines)
  /\ Forall (fun f => location f = "Linha 0")
            (fst (analyzePerformance doc [])
             ++ snd (accessibilityBody doc [])
             ++ analyzeBrokenLinks doc []).
Proof.
  assert (Hwithin : forall lines,
             Forall (locatedWithin lines)
                    (fst (analyzePerformance doc lines)
                     ++ snd (accessibilityBody doc lines)
                     ++ analyzeBrokenLinks doc lines)).
  { intros lines.
    destruct (accessibilityBody_report doc lines) as [reached [rest [_ [Hbody _]]]].
    rewrite analyzePerformance_report, Hbody, analyzeBrokenLinks_report.
    repeat (apply Forall_app; split); apply Forall_flat_map; intros c _.
    - generalize (scriptCallback_located lines c). apply Forall_impl.
      intros f. apply located_is_within.
    - generalize (altCallback_located lines c). apply Forall_impl.
      intros f. apply located_is_within.
    - generalize (contrastCallback_located lines c). apply Forall_impl.
      intros f. apply located_is_within.
    - generalize (linkCallback_located lines c). apply Forall_impl.
      intros f. apply located_is_within. }
  split; [apply Hwithin |].
  generalize (Hwithin []). apply Forall_impl.
  intros f [k [Hloc Hk]]. simpl in Hk. assert (k = 0%Z) by lia. now subst.
Qed.

(** ** The text of the report *)

Lemma renderItem_onto (index : Z) (item : Finding) (reportText : string) :
  renderItem index item reportText = reportText ++ blockOf index item.
Proof.
  unfold blockOf, renderItem. cbv zeta.
  now rewrite !StringFacts.append_assoc.
Qed.

Lemma forEachFrom_onto (report : list Finding) :
  forall index reportText,
    forEachFrom index report reportText = reportText ++ blocksFrom index report.
Proof.
  induction report as [|item rest IH]; intros index reportText; simpl.
  - now rewrite StringFacts.append_empty_r.
  - now rewrite IH, renderItem_onto, StringFacts.append_assoc.
Qed.

Lemma blocksFrom_app (report more : list Finding) :
  forall index,
    blocksFrom index (report ++ more)
    = blocksFrom index report
      ++ blocksFrom (index + Z.of_nat (List.length report)) more.
Proof.
  induction report as [|item rest IH]; intros index.
  - simpl. f_equal. lia.
  - cbn [blocksFrom app List.length].
    rewrite StringFacts.append_assoc, (IH (index + 1)%Z).
    replace (index + Z.of_nat (S (List.length rest)))%Z
      with (index + 1 + Z.of_nat (List.length rest))%Z by lia.
    reflexivity.
Qed.

Lemma optionalLine_text (label : string) (field : option string) :
  optionalLine label field = fieldLine label field.
Proof. destruct field as [[|c rest]|]; reflexivity. Qed.

Lemma blockOf_text (i : nat) (item : Finding) :
  blockOf (Z.of_nat i) item = blockText (S i) item.
Proof.
  unfold blockOf, renderItem, blockText, showZ. cbv zeta.
  replace (Z.of_nat i + 1)%Z with (Z.of_nat (S i)) by lia.
  rewrite !optionalLine_text.
  generalize (NilZero.string_of_int (Z.to_int (Z.of_nat (S i)))).
  intros digits. rewrite !StringFacts.append_assoc. reflexivity.
Qed.

Lemma concat_cons_text (first : string) (others : list string) :
  String.concat EmptyString (first :: others)
  = first ++ String.concat EmptyString others.
Proof.
  destruct others; simpl; [now rewrite StringFacts.append_empty_r | reflexivity].
Qed.

Lemma blocksFrom_text (report : list Finding) :
  forall i, blocksFrom (Z.of_nat i) report = blockTexts (S i) report.
Proof.
  unfold blockTexts.
  induction report as [|item rest IH]; intros i; [reflexivity |].
  cbn [blocksFrom List.length seq combine map fst snd].
  rewrite concat_cons_text, <- (IH (S i)), blockOf_text.
  do 2 f_equal. lia.
Qed.

(** The text built by [generateReport] (lines 252-264) is the header
    line and a blank line, followed by one block per finding in the
    order of the list.  The block of the [n]-th finding, counting from
    1, is the line [Problema n:], the four lines of its type, issue,
    solution and location, one line for each of resource, hierarchy,
    size and contrast that is set and non-empty, and a blank line.  The
    text of an empty list is the header alone, and the text of two lists
    put together is the text of the first followed by the blocks of the
    second, numbered on from where the first stopped. *)
Theorem report_text_is_header_and_blocks (report more : list Finding) :
  reportTextOf report
  = "🔍 Relatório de Análise do Site"
    ++ String (ascii_of_nat 10) (String (ascii_of_nat 10) EmptyString)
    ++ blockTexts 1 report
  /\ reportTextOf []
     = "🔍 Relatório de Análise do Site"
       ++ String (ascii_of_nat 10) (String (ascii_of_nat 10) EmptyString)
  /\ reportTextOf (report ++ more)
     = reportTextOf report ++ blockTexts (S (List.length report)) more.
Proof.
  unfold reportTextOf. rewrite !forEachFrom_onto. split; [| split].
  - rewrite <- (blocksFrom_text report 0).
    set (blocks := blocksFrom (Z.of_nat 0) report).
    now rewrite !StringFacts.append_assoc.
  - reflexivity.
  - rewrite (blocksFrom_app report more 0), Z.add_0_l, blocksFrom_text.
    set (header := "🔍 Relatório de Análise do Site" ++ NL ++ NL).
    now rewrite StringFacts.append_assoc.
Qed.

(** The blocks of two findings, the second with a resource. *)
Example report_text_sample :
  reportTextOf
    [ {| type := "SEO"; issue := "Título ausente"; solution := "s";
         location := "Head do documento"; resource := None; hierarchy := None;
         size := None; contrastRatio := None |};
      {| type := "Link"; issue := "Link quebrado ou vazio"; solution := "t";
         location := "Linha 3"; resource := Some "#top"; hierarchy := Some EmptyString;
         size := None; contrastRatio := None |} ]
  = "🔍 Relatório de Análise do Site" ++ NL ++ NL
    ++ "📌 Problema 1:" ++ NL ++ "   - Tipo: SEO" ++ NL
    ++ "   - Problema: Título ausente" ++ NL ++ "   - Solução: s" ++ NL
    ++ "   - Localização: Head do documento" ++ NL ++ NL
    ++ "📌 Problema 2:" ++ NL ++ "   - Tipo: Link" ++ NL
    ++ "   - Problema: Link quebrado ou vazio" ++ NL ++ "   - Solução: t" ++ NL
    ++ "   - Localização: Linha 3" ++ NL ++ "   - Recurso: #top" ++ NL ++ NL.
Proof. reflexivity. Qed.

(** ** Writing the report *)

Lemma assoc_write_same path content fs : assoc path (write path content fs) = Some content.
Proof. unfold write. simpl. now rewrite String.eqb_refl. Qed.

Lemma assoc_write_other path other content fs :
  other <> path -> assoc other (write path content fs) = assoc other fs.
Proof.
  intros Hne. unfold write. simpl.
  assert (Hpath : String.eqb path other = false)
    by (apply String.eqb_neq; congruence).
  rewrite Hpath.
  induction fs as [|[k v] fs IH]; simpl; [reflexivity |].
  destruct (String.eqb k path) eqn:Hk; simpl.
  - apply String.eqb_eq in Hk. subst k. now rewrite Hpath.
  - now rewrite IH.
Qed.

Lemma write_twice path content fs :
  write path content (write path content fs) = write path content fs.
Proof.
  unfold write. simpl. rewrite String.eqb_refl. simpl. f_equal.
  induction fs as [|[k v] fs IH]; simpl; [reflexivity |].
  destruct (String.eqb k path) eqn:Hk; simpl; [exact IH |].
  now rewrite Hk, IH.
Qed.

(** [generateReport] (lines 251-269).  When the write goes through, the
    report file holds the text of the findings, whatever it held before,
    every other file is as it was, and the console gets the one line
    that says the report was saved and names the file.  When the write
    fails at the open, [generateReport] throws the error and has changed
    nothing.  When it fails later, [generateReport] throws the error and
    the report file is left with the part of the text written so far;
    every other file is as it was.  A failed write logs nothing. *)
Theorem generateReport_writes_then_logs {cfg : Config} {env : Environment}
  (report : list Finding) (w : world) :
  (write_outcome REPORT_FILE (reportTextOf report) = Written ->
   fst (generateReport report w) = inr tt
   /\ assoc REPORT_FILE (files (snd (generateReport report w)))
      = Some (reportTextOf report)
   /\ (forall other, other <> REPORT_FILE ->
         assoc other (files (snd (generateReport report w))) = assoc other (files w))
   /\ console (snd (generateReport report w))
      = (console w ++ [(Stdout, ("✅ Relatório salvo em " ++ REPORT_FILE)%string)])%list)
  /\ (forall e, write_outcome REPORT_FILE (reportTextOf report) = FailedAtOpen e ->
        generateReport report w = (inl e, w))
  /\ (forall e written,
        write_outcome REPORT_FILE (reportTextOf report) = FailedAfter e written ->
        fst (generateReport report w) = inl e
        /\ assoc REPORT_FILE (files (snd (generateReport report w)))
           = Some (substring 0 written (reportTextOf report))
        /\ (forall other, other <> REPORT_FILE ->
              assoc other (files (snd (generateReport report w))) = assoc other (files w))
        /\ console (snd (generateReport report w)) = console w).
Proof.
  unfold generateReport, writeFileSync, store, bind, log, modify, throw.
  split; [| split].
  - intros ->. simpl. repeat split.
    + apply assoc_write_same.
    + intros other Hother. now apply assoc_write_other.
  - intros e ->. reflexivity.
  - intros e written ->. simpl. repeat split.
    + apply assoc_write_same.
    + intros other Hother. now apply assoc_write_other.
Qed.

(** Writing a report of no finding over an older report, onto a disk
    that refuses the open, and onto a disk that is full after ten code
    units. *)
Lemma generateReport_writes_then_logs_witness :
  let before := {| console := [];
                   files := [("notes.txt", "n"); ("site-analysis-report.txt", "old")];
                   performanceReport := []; inflight := [] |} in
  (assoc "site-analysis-report.txt"
         (files (snd (@generateReport sourceConfig online [] before)))
   = Some ("🔍 Relatório de Análise do Site" ++ NL ++ NL)
   /\ console (snd (@generateReport sourceConfig online [] before))
      = [(Stdout, "✅ Relatório salvo em site-analysis-report.txt")])
  /\ @generateReport sourceConfig readOnlyDisk [] before
     = (inl {| message := "EACCES: permission denied" |}, before)
  /\ (assoc "site-analysis-report.txt"
            (files (snd (@generateReport sourceConfig fullDisk [] before)))
      = Some (substring 0 10 ("🔍 Relatório de Análise do Site" ++ NL ++ NL))
      /\ assoc "notes.txt" (files (snd (@generateReport sourceConfig fullDisk [] before)))
         = Some "n").
Proof.
  intros before.
  destruct (@generateReport_writes_then_logs sourceConfig online [] before)
    as [Hwritten _].
  destruct (@generateReport_writes_then_logs sourceConfig readOnlyDisk [] before)
    as [_ [Hopen _]].
  destruct (@generateReport_writes_then_logs sourceConfig fullDisk [] before)
    as [_ [_ Hlater]].
  split; [| split].
  - destruct (Hwritten eq_refl) as [_ [Hfile [_ Hconsole]]].
    split; [exact Hfile | exact Hconsole].
  - apply (Hopen _ eq_refl).
  - destruct (Hlater _ _ eq_refl) as [_ [Hfile [Hothers _]]].
    split; [exact Hfile |].
    rewrite (Hothers "notes.txt"); [reflexivity | discriminate].
Defined.

(** ** The whole run *)

Section Runs.

Context {cfg : Config} {lib : Library} {env : Environment}.

(** The findings of a page in the order of line 287, given the report
    the Accessibility evaluator answered. *)
Definition fullReportWith (doc : document) (htmlLines : list string)
  (accessibilityReport : list Finding) : list Finding :=
  (analyzeSEO doc htmlLines
   ++ fst (analyzePerformance doc htmlLines)
   ++ accessibilityReport
   ++ analyzeBrokenLinks doc htmlLines
   ++ analyzeSecurity doc htmlLines
   ++ analyzeMobile doc htmlLines)%list.

(** The world once the Performance evaluator has answered. *)
Definition afterPerformance (doc : document) (htmlLines : list string) (w : world)
  : world :=
  {| console := console w;
     files := files w;
     performanceReport := fst (analyzePerformance doc htmlLines);
     inflight := snd (analyzePerformance doc htmlLines) |}.

(** The [catch] of line 298 on the world [w]. *)
Definition caught (e : error) (w : world) : (error + unit) * world :=
  (inr tt, {| console := logError ("Erro ao analisar o site: " ++ message e) (console w);
              files := files w;
              performanceReport := performanceReport w;
              inflight := inflight w |}).

Definition withReportFile (content : string) (w : world) : world :=
  {| console := console w;
     files := write REPORT_FILE content (files w);
     performanceReport := performanceReport w;
     inflight := inflight w |}.

Lemma analyzeSite_cases (url : string) (w : world) :
  analyzeSite url w
  = match axios_get url with
    | inl e => caught e w
    | inr data =>
        match cheerio_load data with
        | inl e => caught e w
        | inr doc =>
            let htmlLines := split LF data in
            let started := afterPerformance doc htmlLines w in
            match analyzeAccessibility doc htmlLines with
            | inl e => caught e started
            | inr accessibilityReport =>
                let reportText :=
                  reportTextOf (fullReportWith doc htmlLines accessibilityReport) in
                match write_outcome REPORT_FILE reportText with
                | Written =>
                    (inr tt,
                     {| console := logSuccess ("Relatório salvo em " ++ REPORT_FILE)
                                              (console w);
                        files := write REPORT_FILE reportText (files w);
                        performanceReport := fst (analyzePerformance doc htmlLines);
                        inflight := snd (analyzePerformance doc htmlLines) |})
                | FailedAtOpen e => caught e started
                | FailedAfter e written =>
                    caught e (withReportFile (substring 0 written reportText) started)
                end
            end
        end
    end.
Proof.
  unfold analyzeSite, try_catch, bind, attempt, ret, throw, caught.
  destruct (axios_get url) as [e | data]; [reflexivity |].
  cbv beta iota.
  destruct (cheerio_load data) as [e | doc]; [reflexivity |].
  cbv beta iota zeta.
  unfold awaitPerformance.
  rewrite (surjective_pairing (analyzePerformance doc (split LF data))) at 1.
  cbv beta iota.
  destruct (analyzeAccessibility doc (split LF data)) as [e | accessibilityReport];
    [reflexivity |].
  cbv beta iota.
  unfold generateReport, writeFileSync, store, bind, modify, throw, fullReportWith.
  destruct (write_outcome REPORT_FILE _) as [| e | e written]; reflexivity.
Qed.

End Runs.

(** [analyzeSite] (lines 272-301) never lets an error out, whether of
    the fetch, the parse, an evaluator or the write, and never touches a
    file other than the report file.  Every run adds exactly one line to
    the console: either the line that says the report was saved, and then
    the report file holds the text whose write went through, or one error
    line carrying the message of what failed, and then the files are as
    they were or, when the write of a text failed with that error after
    its open, the report file holds the part of that text written so
    far. *)
Theorem run_ends_with_one_console_line
  {cfg : Config} {lib : Library} {env : Environment} (url : string) (w : world) :
  fst (analyzeSite url w) = inr tt
  /\ (forall other, other <> REPORT_FILE ->
        assoc other (files (snd (analyzeSite url w))) = assoc other (files w))
  /\ ((console (snd (analyzeSite url w))
       = (console w ++ [(Stdout, ("✅ Relatório salvo em " ++ REPORT_FILE)%string)])%list
       /\ exists reportText,
            write_outcome REPORT_FILE reportText = Written
            /\ assoc REPORT_FILE (files (snd (analyzeSite url w))) = Some reportText)
      \/ (exists e,
            console (snd (analyzeSite url w))
            = (console w
               ++ [(Stderr, ("❌ Erro ao analisar o site: " ++ message e)%string)])%list
            /\ (files (snd (analyzeSite url w)) = files w
                \/ exists reportText written,
                     write_outcome REPORT_FILE reportText = FailedAfter e written
                     /\ assoc REPORT_FILE (files (snd (analyzeSite url w)))
                        = Some (substring 0 written reportText)))).
Proof.
  rewrite analyzeSite_cases. unfold caught.
  destruct (axios_get url) as [e | data];
    [repeat split; right; exists e; split; [reflexivity | now left] |].
  destruct (cheerio_load data) as [e | doc];
    [repeat split; right; exists e; split; [reflexivity | now left] |].
  cbv zeta.
  destruct (analyzeAccessibility doc (split LF data)) as [e | accessibilityReport];
    [repeat split; right; exists e; split; [reflexivity | now left] |].
  destruct (write_outcome REPORT_FILE _) as [| e | e written] eqn:Hwrite.
  - split; [reflexivity | split].
    + intros other Hother. simpl. now apply assoc_write_other.
    + left. split; [reflexivity |]. eexists. split; [exact Hwrite |].
      simpl. apply assoc_write_same.
  - repeat split; right; exists e; split; [reflexivity | now left].
  - split; [reflexivity | split].
    + intros other Hother. simpl. now apply assoc_write_other.
    + right. exists e. split; [reflexivity | right].
      eexists _, written. split; [exact Hwrite |]. simpl. apply assoc_write_same.
Qed.

(** A run whose fetch and parse go through, whose Accessibility
    evaluator answers a report, and whose write goes through (lines
    274-297): the report file holds the header and the blocks of the
    findings of the six evaluators in the order SEO, Performance,
    Accessibility, Broken Links, Security, Mobile, computed over the
    lines of the fetched text; every other file is untouched; the console
    gets the line that says the report was saved; and the image checks
    the Performance evaluator started are left in flight. *)
Theorem successful_run_writes_all_findings_in_order
  {cfg : Config} {lib : Library} {env : Environment}
  (url data : string) (doc : document) (accessibilityReport : list Finding) (w : world) :
  axios_get url = inr data ->
  cheerio_load data = inr doc ->
  analyzeAccessibility doc (split LF data) = inr accessibilityReport ->
  let htmlLines := split LF data in
  let fullReport :=
    (analyzeSEO doc htmlLines
     ++ fst (analyzePerformance doc htmlLines)
     ++ accessibilityReport
     ++ analyzeBrokenLinks doc htmlLines
     ++ analyzeSecurity doc htmlLines
     ++ analyzeMobile doc htmlLines)%list in
  write_outcome REPORT_FILE (reportTextOf fullReport) = Written ->
  assoc REPORT_FILE (files (snd (analyzeSite url w))) = Some (reportTextOf fullReport)
  /\ (forall other, other <> REPORT_FILE ->
        assoc other (files (snd (analyzeSite url w))) = assoc other (files w))
  /\ console (snd (analyzeSite url w))
     = (console w ++ [(Stdout, ("✅ Relatório salvo em " ++ REPORT_FILE)%string)])%list
  /\ inflight (snd (analyzeSite url w)) = snd (analyzePerformance doc htmlLines).
Proof.
  intros Hget Hload Hacc htmlLines fullReport Hwrite.
  rewrite analyzeSite_cases, Hget, Hload. cbv zeta. rewrite Hacc.
  unfold fullReportWith. fold htmlLines. fold fullReport. rewrite Hwrite. simpl.
  repeat split.
  - apply assoc_write_same.
  - intros other Hother. now apply assoc_write_other.
Qed.

(** The run on the minimal page writes six blocks, says so, and leaves
    the check of its image in flight. *)
Lemma successful_run_writes_all_findings_in_order_witness :
  let after := snd (@analyzeSite sourceConfig sampleLibrary online "u" emptyWorld) in
  (exists reportText,
      assoc "site-analysis-report.txt" (files after) = Some reportText
      /\ reportText
         = reportTextOf
             (@fullReportWith sourceConfig sampleLibrary minimalPage
                ["<html><head></head><body><img src='a.png'></body></html>"]
                (snd (@accessibilityBody sampleLibrary minimalPage
                        ["<html><head></head><body><img src='a.png'></body></html>"]))))
  /\ console after = [(Stdout, "✅ Relatório salvo em site-analysis-report.txt")]
  /\ map request (inflight after) = ["a.png"].
Proof.
  intros after.
  destruct (@successful_run_writes_all_findings_in_order sourceConfig sampleLibrary online
              "u" _ minimalPage _ emptyWorld eq_refl eq_refl eq_refl eq_refl)
    as [Hfile [_ [Hconsole Hflight]]].
  split; [| split].
  - eexists. split; [exact Hfile | reflexivity].
  - subst after. rewrite Hconsole. reflexivity.
  - subst after. rewrite Hflight. reflexivity.
Defined.

(** A run whose fetch and parse go through and whose Accessibility
    evaluator answers a report, but whose write fails (line 267 throws
    inside the [try]): the error is caught and logged with its message
    and no success line is written; the image checks started earlier by
    the Performance evaluator are in flight all the same.  When the write
    failed at its open no file has changed; when it failed later the
    report file is left with the part of the text written so far, and
    every other file is as it was. *)
Theorem failed_write_is_logged
  {cfg : Config} {lib : Library} {env : Environment}
  (url data : string) (doc : document) (accessibilityReport : list Finding)
  (e : error) (w : world) :
  axios_get url = inr data ->
  cheerio_load data = inr doc ->
  analyzeAccessibility doc (split LF data) = inr accessibilityReport ->
  let htmlLines := split LF data in
  let reportText :=
    reportTextOf (analyzeSEO doc htmlLines
                  ++ fst (analyzePerformance doc htmlLines)
                  ++ accessibilityReport
                  ++ analyzeBrokenLinks doc htmlLines
                  ++ analyzeSecurity doc htmlLines
                  ++ analyzeMobile doc htmlLines)%list in
  (write_outcome REPORT_FILE reportText = FailedAtOpen e
   \/ exists written, write_outcome REPORT_FILE reportText = FailedAfter e written) ->
  fst (analyzeSite url w) = inr tt
  /\ console (snd (analyzeSite url w))
     = (console w
        ++ [(Stderr, ("❌ Erro ao analisar o site: " ++ message e)%string)])%list
  /\ inflight (snd (analyzeSite url w)) = snd (analyzePerformance doc htmlLines)
  /\ (forall other, other <> REPORT_FILE ->
        assoc other (files (snd (analyzeSite url w))) = assoc other (files w))
  /\ (write_outcome REPORT_FILE reportText = FailedAtOpen e ->
      files (snd (analyzeSite url w)) = files w)
  /\ (forall written,
        write_outcome REPORT_FILE reportText = FailedAfter e written ->
        assoc REPORT_FILE (files (snd (analyzeSite url w)))
        = Some (substring 0 written reportText)).
Proof.
  intros Hget Hload Hacc htmlLines reportText Hwrite.
  rewrite analyzeSite_cases, Hget, Hload. cbv zeta. rewrite Hacc.
  unfold fullReportWith, caught. fold htmlLines. fold reportText.
  destruct Hwrite as [Hwrite | [written Hwrite]]; rewrite Hwrite; simpl.
  - repeat split; try reflexivity. intros written Hother. discriminate.
  - repeat split; try discriminate.
    + intros other Hother. now apply assoc_write_other.
    + intros written' [= <-]. apply assoc_write_same.
Qed.

(** The run on the minimal page with a disk that refuses the open, and
    with a disk that is full after ten code units. *)
Lemma failed_write_is_logged_witness :
  let refused := snd (@analyzeSite sourceConfig sampleLibrary readOnlyDisk "u" emptyWorld) in
  let cut := snd (@analyzeSite sourceConfig sampleLibrary fullDisk "u" emptyWorld) in
  (console refused = [(Stderr, "❌ Erro ao analisar o site: EACCES: permission denied")]
   /\ files refused = []
   /\ map request (inflight refused) = ["a.png"])
  /\ (console cut
      = [(Stderr, "❌ Erro ao analisar o site: ENOSPC: no space left on device")]
      /\ option_map String.length (assoc "site-analysis-report.txt" (files cut))
         = Some 10%nat).
Proof.
  intros refused cut. split.
  - destruct (@failed_write_is_logged sourceConfig sampleLibrary readOnlyDisk
                "u" _ minimalPage _ {| message := "EACCES: permission denied" |}
                emptyWorld eq_refl eq_refl eq_refl)
      as [_ [Hconsole [Hflight [_ [Hfiles _]]]]]; [left; reflexivity |].
    subst refused. rewrite Hconsole, Hflight, (Hfiles eq_refl). repeat split.
  - destruct (@failed_write_is_logged sourceConfig sampleLibrary fullDisk
                "u" _ minimalPage _ {| message := "ENOSPC: no space left on device" |}
                emptyWorld eq_refl eq_refl eq_refl)
      as [_ [Hconsole [_ [_ [_ Hfile]]]]]; [right; exists 10%nat; reflexivity |].
    subst cut. split; [exact Hconsole |].
    change "site-analysis-report.txt" with (@REPORT_FILE sourceConfig).
    rewrite (Hfile 10%nat eq_refl). reflexivity.
Defined.

(** Running the script again in the same environment leaves the files
    exactly as the first run left them: the report is rebuilt from the
    page alone and overwrites itself. *)
Theorem second_run_leaves_the_files_alike
  {cfg : Config} {lib : Library} {env : Environment} (url : string) (w : world) :
  files (snd (analyzeSite url (snd (analyzeSite url w))))
  = files (snd (analyzeSite url w)).
Proof.
  rewrite (analyzeSite_cases url (snd (analyzeSite url w))).
  rewrite (analyzeSite_cases url w). unfold caught.
  destruct (axios_get url) as [e | data]; [reflexivity |].
  destruct (cheerio_load data) as [e | doc]; [reflexivity |].
  cbv zeta.
  destruct (analyzeAccessibility doc (split LF data)) as [e | accessibilityReport];
    [reflexivity |].
  destruct (write_outcome REPORT_FILE _) as [| e | e written];
    [simpl; apply write_twice | reflexivity | simpl; apply write_twice].
Qed.

(** ** A page without any element *)

Lemma select_of_no_element (sel : selector) (doc : document) :
  elements doc = [] -> select sel doc = [].
Proof. unfold select. now intros ->. Qed.

(** On a tree that holds no element at all (an empty body, or bare
    text), the SEO evaluator reports the missing title, the missing
    description and the missing headings, in that order, the Mobile
    evaluator reports the missing viewport, and the Performance,
    Accessibility and Broken-Links evaluators report nothing and start no
    image check. *)
Theorem page_without_elements {cfg : Config} {lib : Library}
  (doc : document) (htmlLines : list string) :
  elements doc = [] ->
  map issue (analyzeSEO doc htmlLines)
  = ["Título ausente"; "Meta description ausente"; "Nenhum heading encontrado"]
  /\ analyzePerformance doc htmlLines = ([], [])
  /\ analyzeAccessibility doc htmlLines = inr []
  /\ analyzeBrokenLinks doc htmlLines = []
  /\ map issue (analyzeMobile doc htmlLines) = ["Viewport não configurado"].
Proof.
  intros Hnone.
  unfold analyzeSEO, checkTitle, checkDescription, checkHeadings,
    analyzePerformance, analyzeAccessibility, accessibilityBody, analyzeBrokenLinks,
    analyzeMobile, checkViewport.
  rewrite !(select_of_no_element _ doc Hnone). repeat split.
Qed.

(** The empty tree and a tree of bare text. *)
Lemma page_without_elements_witness :
  List.length (analyzeSEO [] []) = 3%nat
  /\ @analyzePerformance sourceConfig sampleLibrary [Text "plain"; Comment "c"] ["plain"]
     = ([], []).
Proof.
  split.
  - destruct (@page_without_elements sourceConfig sampleLibrary [] [] eq_refl)
      as [Hseo _].
    rewrite <- (length_map issue), Hseo. reflexivity.
  - destruct (@page_without_elements sourceConfig sampleLibrary
                [Text "plain"; Comment "c"] ["plain"] eq_refl) as [_ [Hperf _]].
    exact Hperf.
Defined.
